(** * Timber Volume Calculator: the Excel synchronisation core of [script.js]

    A shallow embedding of the external-file synchronisation code of
    [src/script.js] (lines 1-233): the handle store kept in IndexedDB, the
    permission gate, the workbook helpers built on the SheetJS [XLSX]
    library, [connectExcelFile], [appendCustomerToExcel] and
    [restoreExcelConnectionStatus].

    The browser and library collaborators are modelled explicitly:
    - a [World] record holds what the code can observe or change (the
      [window] feature flags, the [#excelStatus] element, the IndexedDB
      slot, the files behind the handles) together with a ghost [trace] of
      the collaborator calls made so far;
    - an [oracle] inside the world decides, call by call, how each
      asynchronous collaborator behaves (which error it rejects with, which
      permission it reports, which file the user picks);
    - [async] functions are computations in a state-and-exception monad
      [M]; [try]/[catch] is [try_catch].

    The definitions come first; the lemmas and the theorems for the claims
    C1-C10 of the specification follow, and the file ends with the claims
    instantiated on concrete runs. *)

From Stdlib Require Import ZArith QArith Qabs Qround Lia.
From Stdlib Require Import Ascii String DecimalString.
From stdpp Require Import base option list gmap strings.

Close Scope Q_scope.
Local Open Scope string_scope.
Local Open Scope list_scope.

(* ===================================================================== *)
(** ** JavaScript numbers and [Number.prototype.toFixed] *)
(* ===================================================================== *)

(** A JavaScript number: not-a-number, an infinity, or a finite double,
    which is carried by its exact rational value. *)
Inductive JSNumber : Type :=
  | NaN
  | Infinity (negative : bool)
  | Finite (value : Q).

Definition is_digit (c : ascii) : bool :=
  (48 <=? nat_of_ascii c)%nat && (nat_of_ascii c <=? 57)%nat.

(** The decimal digits of a natural number, most significant first;
    ["0"] for zero. *)
Definition digit_chars (n : N) : list ascii :=
  list_ascii_of_string (NilZero.string_of_uint (N.to_uint n)).

(** Left-pad [m] with ["0"] up to [k] characters. *)
Definition pad_zeros (k : nat) (m : list ascii) : list ascii :=
  repeat "0"%char (k - length m) ++ m.

Section ToFixed.

(** [Number::toString] of a finite value of magnitude at least 10^21
    (exponential notation, shortest round-tripping digits): the one part
    of [toFixed] that depends on the binary layout of a double. *)
Variable Number_toString : Q -> string.

(** [x.toFixed(fractionDigits)], following ECMAScript
    (Number.prototype.toFixed, steps 6-12): a non-finite [x] is printed by
    [Number::toString]; otherwise the sign is split off, a magnitude of
    10^21 or more is printed by [Number::toString], and a smaller one is
    rounded to the integer [n] nearest to [x * 10^f] (the larger of two
    candidates), whose digits are left-padded with zeros to [f + 1]
    characters and split by a ["."] before the last [f]. *)
Definition toFixed (x : JSNumber) (fractionDigits : nat) : string :=
  match x with
  | NaN => "NaN"
  | Infinity false => "Infinity"
  | Infinity true => "-Infinity"
  | Finite q =>
      let f := fractionDigits in
      let s := if Qle_bool 0 q then "" else "-" in
      let x := Qabs q in
      if Qle_bool (inject_Z (10 ^ 21)) x then s ++ Number_toString x
      else
        let n := Z.to_N (Qfloor (x * inject_Z (10 ^ Z.of_nat f) + (1 # 2))%Q) in
        let m := pad_zeros (f + 1) (digit_chars n) in
        let k := length m in
        let a := firstn (k - f) m in
        let b := skipn (k - f) m in
        s ++ string_of_list_ascii a
          ++ (if (f =? 0)%nat then "" else "." ++ string_of_list_ascii b)
  end.

End ToFixed.

(** Recogniser of decimal text with exactly [f] fractional digits: an
    optional ["-"], one or more digits, a ["."], and exactly [f] digits. *)
Fixpoint split_dot (l : list ascii) : option (list ascii * list ascii) :=
  match l with
  | [] => None
  | c :: l' =>
      if Ascii.eqb c "."%char then Some ([], l')
      else match split_dot l' with
           | Some (a, b) => Some (c :: a, b)
           | None => None
           end
  end.

Definition drop_sign (l : list ascii) : list ascii :=
  match l with
  | c :: l' => if Ascii.eqb c "-"%char then l' else l
  | [] => []
  end.

Definition decimal_text (f : nat) (s : string) : bool :=
  match split_dot (drop_sign (list_ascii_of_string s)) with
  | Some (a, b) =>
      negb (Nat.eqb (length a) 0) && forallb is_digit a
      && forallb is_digit b && Nat.eqb (length b) f
  | None => false
  end.

(* ===================================================================== *)
(** ** The SheetJS collaborator: sheets and workbooks *)
(* ===================================================================== *)

(** The part of the SheetJS [XLSX] utilities that [script.js] calls, at the
    level of arrays of arrays.  A worksheet is the dense list of the rows
    [0 .. e.r] of its used range ["!ref"]; the empty list is a worksheet
    without ["!ref"].  A cell is [Some v] for a cell holding the text [v]
    and [None] where the worksheet has no cell (in data passed to the
    library: [undefined]).  A row without any cell is blank. *)
Module XLSX.

Abbreviation cell := (option string) (only parsing).
Abbreviation row := (list (option string)) (only parsing).
Abbreviation sheet := (list (list (option string))) (only parsing).

Record Workbook : Type := mkWorkbook {
  SheetNames : list string;
  Sheets : gmap string sheet
}.

Definition put_cell (new old : cell) : cell :=
  match new with
  | Some v => Some v
  | None => old
  end.

(** Write the cells of [new] over the row [old] from column A on; cells
    of [old] beyond [new], or under an [undefined] entry, are kept. *)
Fixpoint put_row (new old : row) : row :=
  match new, old with
  | [], _ => old
  | c :: new', [] => c :: put_row new' []
  | c :: new', o :: old' => put_cell c o :: put_row new' old'
  end.

Fixpoint put_rows (data : list row) (ws : sheet) : sheet :=
  match data, ws with
  | [], _ => ws
  | d :: data', [] => put_row d [] :: put_rows data' []
  | d :: data', r :: ws' => put_row d r :: put_rows data' ws'
  end.

(** Write [data] into [ws] from row index [R], column A, extending the
    used range with blank rows where needed. *)
Fixpoint write_at (R : nat) (data : list row) (ws : sheet) : sheet :=
  match R with
  | O => put_rows data ws
  | S R' =>
      match ws with
      | [] => [] :: write_at R' data []
      | r :: ws' => r :: write_at R' data ws'
      end
  end.

(** The two [origin] options the source passes:
    [{ origin: "A1" }] and [{ origin: -1 }]. *)
Inductive Origin : Type :=
  | origin_A1
  | origin_bottom.

(** [XLSX.utils.sheet_add_aoa(ws, data, { origin })].  With an origin, a
    worksheet without ["!ref"] first gets the range ["A1:A1"] (one blank
    row); origin [-1] then starts at the row after the last row of the
    range, origin ["A1"] at the first row. *)
Definition sheet_add_aoa (ws : sheet) (data : list row) (origin : Origin)
  : sheet :=
  let ws := match ws with [] => [[]] | _ => ws end in
  match origin with
  | origin_A1 => write_at 0 data ws
  | origin_bottom => write_at (length ws) data ws
  end.

(** [XLSX.utils.aoa_to_sheet(data)]: a fresh worksheet, filled from A1;
    its range is taken from the cells written. *)
Definition aoa_to_sheet (data : list row) : sheet := write_at 0 data [].

Definition blank_cell (c : cell) : bool :=
  match c with
  | None => true
  | Some _ => false
  end.

Definition blank_row (r : row) : bool := forallb blank_cell r.

(** Drop the blank cells at the end of a row. *)
Fixpoint trim (r : row) : row :=
  match r with
  | [] => []
  | c :: r' =>
      match trim r' with
      | [] => if blank_cell c then [] else [c]
      | t => c :: t
      end
  end.

(** [XLSX.utils.sheet_to_json(ws, { header: 1, blankrows: false })]: one
    array per row of the range that is not blank, ending at its last
    cell. *)
Definition sheet_to_json (ws : sheet) : list row :=
  map trim (List.filter (fun r => negb (blank_row r)) ws).

(** [XLSX.utils.book_new()]. *)
Definition book_new : Workbook := mkWorkbook [] ∅.

(** [XLSX.utils.book_append_sheet(wb, ws, name)]; [None] when the library
    throws because the workbook already has a sheet of that name. *)
Definition book_append_sheet (wb : Workbook) (ws : sheet) (name : string)
  : option Workbook :=
  if bool_decide (name ∈ SheetNames wb) then None
  else Some (mkWorkbook (SheetNames wb ++ [name]) (<[name := ws]> (Sheets wb))).

End XLSX.

(* ===================================================================== *)
(** ** The browser world *)
(* ===================================================================== *)

(** A [FileSystemFileHandle]: an opaque capability for one file, with the
    [name] the code displays. *)
Record FileHandle : Type := mkHandle {
  fileId : nat;
  name : string
}.

(** The three answers of [queryPermission] / [requestPermission]. *)
Inductive PermissionState : Type :=
  | granted
  | denied
  | prompt.

(** A thrown value, as far as the code inspects it: [error.name]. *)
Record JSError : Type := mkError {
  error_name : string
}.

Definition AbortError : JSError := mkError "AbortError".

(** The [#excelStatus] element: its text and whether it carries the
    ["error"] class. *)
Record StatusElement : Type := mkStatus {
  textContent : string;
  error_class : bool
}.

(** Collaborator calls, logged as they happen (the setting of the status
    included). *)
Inductive Event : Type :=
  | EvShowSaveFilePicker
  | EvQueryPermission (h : FileHandle)
  | EvRequestPermission (h : FileHandle)
  | EvOpenDb
  | EvPut (h : FileHandle)
  | EvGet
  | EvGetFile (h : FileHandle)
  | EvArrayBuffer (h : FileHandle)
  | EvCreateWritable (h : FileHandle)
  | EvWrite (h : FileHandle)
  | EvClose (h : FileHandle)
  | EvTime
  | EvStatus (message : string) (isError : bool).

(** What the environment answers to one collaborator call: whether the
    call rejects (and with which error), and the values the call would
    otherwise deliver; each call reads the fields it needs. *)
Record Answer : Type := mkAnswer {
  fault : option JSError;
  permission : PermissionState;
  picked : FileHandle;
  time : string
}.

Record World : Type := mkWorld {
  has_showSaveFilePicker : bool;      (* window.showSaveFilePicker *)
  has_indexedDB : bool;               (* window.indexedDB *)
  has_XLSX : bool;                    (* window.XLSX *)
  excelStatus : option StatusElement; (* document.getElementById("excelStatus") *)
  store : option FileHandle;          (* the slot HANDLE_KEY of the object store *)
  files : gmap nat (list Byte.byte);  (* contents of the files, by [fileId] *)
  oracle : nat -> Answer;             (* the environment's answers, by call number *)
  clock : nat;                        (* number of answers consumed *)
  trace : list Event                  (* ghost: calls made, most recent first *)
}.

Definition set_excelStatus (s : option StatusElement) (w : World) : World :=
  mkWorld (has_showSaveFilePicker w) (has_indexedDB w) (has_XLSX w) s
          (store w) (files w) (oracle w) (clock w) (trace w).

Definition set_store (s : option FileHandle) (w : World) : World :=
  mkWorld (has_showSaveFilePicker w) (has_indexedDB w) (has_XLSX w)
          (excelStatus w) s (files w) (oracle w) (clock w) (trace w).

Definition set_files (f : gmap nat (list Byte.byte)) (w : World) : World :=
  mkWorld (has_showSaveFilePicker w) (has_indexedDB w) (has_XLSX w)
          (excelStatus w) (store w) f (oracle w) (clock w) (trace w).

Definition set_clock (n : nat) (w : World) : World :=
  mkWorld (has_showSaveFilePicker w) (has_indexedDB w) (has_XLSX w)
          (excelStatus w) (store w) (files w) (oracle w) n (trace w).

Definition set_trace (t : list Event) (w : World) : World :=
  mkWorld (has_showSaveFilePicker w) (has_indexedDB w) (has_XLSX w)
          (excelStatus w) (store w) (files w) (oracle w) (clock w) t.

(* ===================================================================== *)
(** ** Asynchronous computations *)
(* ===================================================================== *)

(** How a computation ends: with a value, or with a thrown error (a
    rejected promise). *)
Inductive Outcome (A : Type) : Type :=
  | Ok (a : A)
  | Throw (e : JSError).
Arguments Ok {A} a.
Arguments Throw {A} e.

(** An (async) function body: it runs in a world and leaves a world; the
    effects made before a throw stay. *)
Definition M (A : Type) : Type := World -> Outcome A * World.

Definition ret {A} (a : A) : M A := fun w => (Ok a, w).

Definition throw {A} (e : JSError) : M A := fun w => (Throw e, w).

Definition bind {A B} (m : M A) (k : A -> M B) : M B :=
  fun w =>
    match m w with
    | (Ok a, w') => k a w'
    | (Throw e, w') => (Throw e, w')
    end.

Definition try_catch {A} (body : M A) (handler : JSError -> M A) : M A :=
  fun w =>
    match body w with
    | (Ok a, w') => (Ok a, w')
    | (Throw e, w') => handler e w'
    end.

Definition gets {A} (f : World -> A) : M A := fun w => (Ok (f w), w).

Definition modify (f : World -> World) : M unit := fun w => (Ok tt, f w).

Declare Scope async_scope.
Delimit Scope async_scope with async.
Notation "'let!' x ':=' m 'in' k" := (bind m (fun x => k))
  (at level 10, x name, m at level 100, k at level 200,
   format "'[v' 'let!'  x  ':='  m  'in' '/' k ']'") : async_scope.
Notation "m ;; k" := (bind m (fun _ => k))
  (at level 100, k at level 200, right associativity) : async_scope.
Local Open Scope async_scope.

(** Log a collaborator call. *)
Definition emit (e : Event) : M unit :=
  modify (fun w => set_trace (e :: trace w) w).

(** Take the environment's next answer. *)
Definition ask : M Answer :=
  fun w => (Ok (oracle w (clock w)), set_clock (S (clock w)) w).

(** [await] of a collaborator call: the call is logged, and either rejects
    with the error the environment chose or delivers the answer. *)
Definition await (e : Event) : M Answer :=
  emit e ;;
  let! a := ask in
  match fault a with
  | Some err => throw err
  | None => ret a
  end.

(* ===================================================================== *)
(** ** The source: constants and functions of [script.js], lines 1-233 *)
(* ===================================================================== *)

Import XLSX.

Definition EXCEL_SHEET_NAME : string := "CustomerData".

Definition EXCEL_HEADERS : list (option string) :=
  [Some "Date"; Some "Name"; Some "WhatsApp Number"; Some "Address";
   Some "Total Volume (ft^3)"].

(** A customer record as [createCustomerRecord] builds it. *)
Record Entry : Type := mkEntry {
  id : string;
  date : string;
  customer : string;      (* entry.name *)
  whatsapp : string;
  address : string;
  totalVolume : JSNumber
}.

(** The [options] argument of [appendCustomerToExcel], after
    [Boolean(options.autoConnect)]. *)
Record Options : Type := mkOptions {
  autoConnect : bool
}.

(** [setExcelStatus(message, isError = false)]: without the element the
    call does nothing; otherwise the text becomes ["Excel: " + message] and
    the ["error"] class is present exactly when [isError]. *)
Definition setExcelStatus (message : string) (isError : bool) : M unit :=
  emit (EvStatus message isError) ;;
  modify (fun w =>
    match excelStatus w with
    | None => w
    | Some _ => set_excelStatus (Some (mkStatus ("Excel: " ++ message) isError)) w
    end).

(** [openHandleDb()]: the open request succeeds or fails. *)
Definition openHandleDb : M unit :=
  await EvOpenDb ;; ret tt.

(** [saveFileHandle(handle)]: the slot is overwritten when the
    transaction completes; a failed transaction changes nothing. *)
Definition saveFileHandle (handle : FileHandle) : M unit :=
  openHandleDb ;;
  await (EvPut handle) ;;
  modify (set_store (Some handle)).

(** [getSavedFileHandle()]: [request.result || null]. *)
Definition getSavedFileHandle : M (option FileHandle) :=
  openHandleDb ;;
  await EvGet ;;
  gets store.

Definition is_granted (p : PermissionState) : bool :=
  match p with
  | granted => true
  | _ => false
  end.

(** [ensureReadWritePermission(handle)]. *)
Definition ensureReadWritePermission (handle : option FileHandle) : M bool :=
  match handle with
  | None => ret false
  | Some h =>
      let! current := await (EvQueryPermission h) in
      if is_granted (permission current) then ret true
      else
        let! requested := await (EvRequestPermission h) in
        ret (is_granted (permission requested))
  end.

(** [hasReadWritePermission(handle)]. *)
Definition hasReadWritePermission (handle : option FileHandle) : M bool :=
  match handle with
  | None => ret false
  | Some h =>
      try_catch
        (let! current := await (EvQueryPermission h) in
         ret (is_granted (permission current)))
        (fun _ => ret false)
  end.

(** A library call that throws synchronously when it has no result. *)
Definition lift_option {A} (o : option A) : M A :=
  match o with
  | Some a => ret a
  | None => throw (mkError "Error")
  end.

(** [createWorkbookWithHeaders()]. *)
Definition createWorkbookWithHeaders : M Workbook :=
  let workbook := book_new in
  let sheet := aoa_to_sheet [EXCEL_HEADERS] in
  lift_option (book_append_sheet workbook sheet EXCEL_SHEET_NAME).

(** [appendRowToSheet(sheet, row)]; the worksheet is updated in place in
    the source and returned here. *)
Definition appendRowToSheet (sheet : list (list (option string)))
  (row : list (option string)) : list (list (option string)) :=
  let allRows := sheet_to_json sheet in
  let sheet :=
    if (length allRows =? 0)%nat
    then sheet_add_aoa sheet [EXCEL_HEADERS] origin_A1
    else sheet in
  sheet_add_aoa sheet [row] origin_bottom.

(** [handle.getFile()]: a snapshot of the file's bytes; a handle whose
    file is gone rejects with [NotFoundError]. *)
Definition getFile (handle : FileHandle) : M (list Byte.byte) :=
  await (EvGetFile handle) ;;
  let! fs := gets files in
  match fs !! fileId handle with
  | Some bytes => ret bytes
  | None => throw (mkError "NotFoundError")
  end.

(** [file.arrayBuffer()]. *)
Definition arrayBuffer (handle : FileHandle) (file : list Byte.byte)
  : M (list Byte.byte) :=
  await (EvArrayBuffer handle) ;; ret file.

(** [new Date().toLocaleTimeString()]. *)
Definition toLocaleTimeString : M string :=
  emit EvTime ;;
  let! a := ask in
  ret (time a).

Section Core.

(** [XLSX.read(bytes, { type: "array" })], [None] when it throws, and
    [XLSX.write(workbook, { bookType: "xlsx", type: "array" })]: the
    container format is the library's.  [XLSX.write] is taken where it
    returns; a call that throws comes before [createWritable] and, like a
    rejected [createWritable], changes no file. *)
Variable XLSX_read : list Byte.byte -> option Workbook.
Variable XLSX_write : Workbook -> list Byte.byte.
Variable Number_toString : Q -> string.

(** [writeWorkbookToHandle(workbook, handle)]: the new contents replace
    the file's when the writable stream is closed. *)
Definition writeWorkbookToHandle (workbook : Workbook) (handle : FileHandle)
  : M unit :=
  let data := XLSX_write workbook in
  await (EvCreateWritable handle) ;;
  await (EvWrite handle) ;;
  await (EvClose handle) ;;
  modify (fun w => set_files (<[fileId handle := data]> (files w)) w).

(** The fixed picker options name no state; the picker resolves with the
    handle the user chose or rejects ([AbortError] on dismissal). *)
Definition showSaveFilePicker : M FileHandle :=
  let! a := await EvShowSaveFilePicker in
  ret (picked a).

(** [connectExcelFile()]. *)
Definition connectExcelFile : M bool :=
  let! w := gets (fun w => w) in
  if negb (has_showSaveFilePicker w) || negb (has_indexedDB w) then
    setExcelStatus "Not supported in this browser. Use latest Chrome/Edge." true ;;
    ret false
  else if negb (has_XLSX w) then
    setExcelStatus "Excel library not loaded. Check internet and reload." true ;;
    ret false
  else
    try_catch
      (let! handle := showSaveFilePicker in
       let! hasPermission := ensureReadWritePermission (Some handle) in
       if negb hasPermission then
         setExcelStatus "Permission denied for Excel file." true ;;
         ret false
       else
         saveFileHandle handle ;;
         let! existingFile := getFile handle in
         (if (length existingFile =? 0)%nat then
            let! workbook := createWorkbookWithHeaders in
            writeWorkbookToHandle workbook handle
          else ret tt) ;;
         setExcelStatus ("Connected (" ++ name handle ++ ")") false ;;
         ret true)
      (fun error =>
         if String.eqb (error_name error) "AbortError" then
           setExcelStatus "Connection cancelled." false ;;
           ret false
         else
           setExcelStatus "Failed to connect Excel file." true ;;
           ret false).

(** The row [appendCustomerToExcel] builds from an entry (lines 193-199). *)
Definition entryRow (entry : Entry) : list (option string) :=
  [Some (date entry); Some (customer entry); Some (whatsapp entry);
   Some (address entry); Some (toFixed Number_toString (totalVolume entry) 3)].

(** Lines 186-191 of [appendCustomerToExcel]: look the sheet up by name
    and create it when absent.  Returns the workbook (with the new sheet
    registered) and the sheet. *)
Definition getOrCreateSheet (workbook : Workbook)
  : Workbook * list (list (option string)) :=
  match Sheets workbook !! EXCEL_SHEET_NAME with
  | Some sheet => (workbook, sheet)
  | None =>
      let sheet := aoa_to_sheet [EXCEL_HEADERS] in
      (mkWorkbook (SheetNames workbook ++ [EXCEL_SHEET_NAME])
                  (<[EXCEL_SHEET_NAME := sheet]> (Sheets workbook)),
       sheet)
  end.

(** Lines 186-199: the sheet object is shared with the workbook, so the
    row appended to it is seen through [workbook.Sheets]. *)
Definition appendEntry (workbook : Workbook) (entry : Entry) : Workbook :=
  let '(workbook, sheet) := getOrCreateSheet workbook in
  let sheet := appendRowToSheet sheet (entryRow entry) in
  mkWorkbook (SheetNames workbook)
             (<[EXCEL_SHEET_NAME := sheet]> (Sheets workbook)).

(** Lines 170-203 of [appendCustomerToExcel]: the steps taken once the
    handle is known. *)
Definition appendWithHandle (entry : Entry) (handle : option FileHandle)
  : M bool :=
  let! hasPermission := ensureReadWritePermission handle in
  if negb hasPermission then
    setExcelStatus "No permission to update Excel file." true ;;
    ret false
  else
    match handle with
    | None => throw (mkError "TypeError")
    | Some h =>
        let! file := getFile h in
        let! workbook :=
          (if (0 <? length file)%nat then
             let! buffer := arrayBuffer h file in
             lift_option (XLSX_read buffer)
           else createWorkbookWithHeaders) in
        let workbook := appendEntry workbook entry in
        writeWorkbookToHandle workbook h ;;
        let! now := toLocaleTimeString in
        setExcelStatus ("Updated at " ++ now) false ;;
        ret true
    end.

(** [appendCustomerToExcel(entry, options)]. *)
Definition appendCustomerToExcel (entry : Entry) (options : Options)
  : M bool :=
  let! w := gets (fun w => w) in
  if negb (has_XLSX w) then
    setExcelStatus "Excel library not loaded. Check internet and reload." true ;;
    ret false
  else if negb (has_indexedDB w) || negb (has_showSaveFilePicker w) then
    setExcelStatus "Browser does not support direct Excel autosave." true ;;
    ret false
  else
    try_catch
      (let! handle := getSavedFileHandle in
       match handle with
       | Some _ => appendWithHandle entry handle
       | None =>
           if autoConnect options then
             let! connected := connectExcelFile in
             if negb connected then ret false
             else
               let! handle := getSavedFileHandle in
               appendWithHandle entry handle
           else
             setExcelStatus "Not connected. Click Connect Excel." true ;;
             ret false
       end)
      (fun _ =>
         setExcelStatus "Could not update Excel file." true ;;
         ret false).

(** [restoreExcelConnectionStatus()]. *)
Definition restoreExcelConnectionStatus : M unit :=
  let! w := gets (fun w => w) in
  if negb (has_indexedDB w) || negb (has_showSaveFilePicker w) then
    setExcelStatus "Feature requires latest Chrome/Edge." true
  else
    try_catch
      (let! handle := getSavedFileHandle in
       match handle with
       | None => setExcelStatus "Not connected" false
       | Some h =>
           let! hasPermission := hasReadWritePermission handle in
           if negb hasPermission then
             setExcelStatus "Re-connect needed (permission not granted)" true
           else
             setExcelStatus ("Connected (" ++ name h ++ ")") false
       end)
      (fun _ =>
         setExcelStatus "Connection unavailable. Re-connect Excel." true).

End Core.

(* ===================================================================== *)
(** ** Vocabulary of the statements *)
(* ===================================================================== *)

(** What [setExcelStatus message isError] leaves in the status element. *)
Definition shown (message : string) (isError : bool)
  (element : option StatusElement) : option StatusElement :=
  match element with
  | None => None
  | Some _ => Some (mkStatus ("Excel: " ++ message) isError)
  end.

(** The calls that put a dialog in front of the user. *)
Definition is_prompt (e : Event) : bool :=
  match e with
  | EvShowSaveFilePicker | EvRequestPermission _ => true
  | _ => false
  end.

(** The calls of the write sequence of [writeWorkbookToHandle]. *)
Definition is_write (e : Event) : bool :=
  match e with
  | EvCreateWritable _ | EvWrite _ | EvClose _ => true
  | _ => false
  end.

Definition is_getFile (e : Event) : bool :=
  match e with
  | EvGetFile _ => true
  | _ => false
  end.

(** Between the worlds [w] and [w'] exactly the calls [evs] were made
    (most recent first). *)
Definition emitted (w w' : World) (evs : list Event) : Prop :=
  trace w' = evs ++ trace w.

(** A run of [m] from [w] returns normally, and the last call it made
    set the status, which the status element (if there is one) shows. *)
Definition resolves {A} (m : M A) (w : World) : Prop :=
  exists a message isError evs,
    fst (m w) = Ok a
    /\ emitted w (snd (m w)) (EvStatus message isError :: evs)
    /\ excelStatus (snd (m w)) = shown message isError (excelStatus w).

(** The workbook [createWorkbookWithHeaders] returns. *)
Definition headers_workbook : Workbook :=
  mkWorkbook [EXCEL_SHEET_NAME] (<[EXCEL_SHEET_NAME := [EXCEL_HEADERS]]> ∅).

(** The handler of the [catch] of [appendCustomerToExcel] (lines 204-207). *)
Definition update_failed (error : JSError) : M bool :=
  setExcelStatus "Could not update Excel file." true ;;
  ret false.

(** The call was answered without a rejection. *)
Definition resolved (a : Answer) : bool :=
  match fault a with
  | None => true
  | Some _ => false
  end.

(** The permission gate, entered at call number [n], refuses: the query
    and the request both resolve, and neither reports [granted]. *)
Definition gate_refuses (env : nat -> Answer) (n : nat) : bool :=
  resolved (env n) && negb (is_granted (permission (env n)))
  && resolved (env (S n)) && negb (is_granted (permission (env (S n)))).

(** An append that starts in [w] loads a handle (two calls) and is then
    refused by the permission gate. *)
Definition permission_refused (w : World) : bool :=
  resolved (oracle w (clock w)) && resolved (oracle w (S (clock w)))
  && gate_refuses (oracle w) (S (S (clock w))).

(** The target of a call of [appendCustomerToExcel] that starts in [w]:
    the stored handle or, when none is stored, the handle the user picks
    when the call connects by itself (the picker is the third call of such
    a run, after the two calls of the load). *)
Definition append_target (w : World) : FileHandle :=
  match store w with
  | Some h => h
  | None => picked (oracle w (S (S (clock w))))
  end.

Section Sequences.

Variable XLSX_read : list Byte.byte -> option Workbook.
Variable XLSX_write : Workbook -> list Byte.byte.
Variable Number_toString : Q -> string.

(** Calls of [appendCustomerToExcel] made one after the other, each one
    awaited before the next starts. *)
Fixpoint appendAll (calls : list (Entry * Options)) (w : World)
  : list (Outcome bool) * World :=
  match calls with
  | [] => ([], w)
  | (entry, options) :: rest =>
      let '(r, w1) :=
        appendCustomerToExcel XLSX_read XLSX_write Number_toString
                              entry options w in
      let '(rs, w2) := appendAll rest w1 in
      (r :: rs, w2)
  end.

(** The workbook an append starts from, given the bytes of the target
    (lines 179-184). *)
Definition loaded (bytes : list Byte.byte) : option Workbook :=
  if (0 <? length bytes)%nat then XLSX_read bytes else Some headers_workbook.

(** A target that is empty, or a document whose sheet holds the header
    row and nothing else. *)
Definition fresh_target (bytes : list Byte.byte) : Prop :=
  bytes = [] \/
  exists wb, XLSX_read bytes = Some wb /\
             Sheets wb !! EXCEL_SHEET_NAME = Some [EXCEL_HEADERS].

(** The documents a sequence of successful appends writes one after the
    other when the first of them starts from the workbook [wb0]. *)
Fixpoint written_documents (wb0 : Workbook) (entries : list Entry)
  : list Workbook :=
  match entries with
  | [] => []
  | entry :: rest =>
      let wb1 := appendEntry Number_toString wb0 entry in
      wb1 :: written_documents wb1 rest
  end.

(** The container format reads the document [wb] back as it was written
    (the same sheet names, the same texts in the same cells), and the
    written file is not empty. *)
Definition reads_back (wb : Workbook) : Prop :=
  XLSX_read (XLSX_write wb) = Some wb /\ XLSX_write wb <> [].

(** The documents of a sequence of appends on a target that holds
    [bytes] and is loaded as [wb0]: the header-only document written when
    an empty target is connected, and the documents the appends write. *)
Definition sequence_document (bytes : list Byte.byte) (wb0 : Workbook)
  (entries : list Entry) (wb : Workbook) : Prop :=
  (bytes = [] /\ wb = wb0) \/ In wb (written_documents wb0 entries).

End Sequences.

(* ===================================================================== *)
(** ** A small container format and sample worlds for the examples *)
(* ===================================================================== *)

Module Sample.

(** A positive number as bytes, one binary digit per byte. *)
Fixpoint bytes_of_pos (p : positive) : list Byte.byte :=
  match p with
  | xH => []
  | xO p => Byte.x00 :: bytes_of_pos p
  | xI p => Byte.x01 :: bytes_of_pos p
  end.

Fixpoint pos_of_bytes (l : list Byte.byte) : option positive :=
  match l with
  | [] => Some xH
  | Byte.x00 :: l => option_map xO (pos_of_bytes l)
  | Byte.x01 :: l => option_map xI (pos_of_bytes l)
  | _ => None
  end.

#[local] Instance Workbook_eq_dec : EqDecision Workbook.
Proof. solve_decision. Defined.

#[local] Instance Workbook_countable : Countable Workbook :=
  inj_countable' (fun wb => (SheetNames wb, Sheets wb))
                 (fun p => mkWorkbook p.1 p.2)
                 (fun wb => match wb with mkWorkbook _ _ => eq_refl end).

(** A document is a marker byte followed by the code of the workbook. *)
Definition write (wb : Workbook) : list Byte.byte :=
  Byte.x50 :: bytes_of_pos (encode wb).

Definition read (bytes : list Byte.byte) : option Workbook :=
  match bytes with
  | Byte.x50 :: rest =>
      match pos_of_bytes rest with
      | Some p => decode p
      | None => None
      end
  | _ => None
  end.

(** A reader as lenient as SheetJS, which goes by the first bytes of
    the file: what starts with the marker is a document or, damaged, is
    rejected; anything else is taken as plain text and becomes the one
    cell of a sheet "Sheet1". *)
Definition read_any (bytes : list Byte.byte) : option Workbook :=
  match bytes with
  | Byte.x50 :: _ => read bytes
  | _ =>
      Some (mkWorkbook ["Sheet1"]
              (<["Sheet1" := [[Some (string_of_list_byte bytes)]]]> ∅))
  end.

Definition exponent (q : Q) : string := "1e+21".

Definition target : FileHandle := mkHandle 1 "customer_data.xlsx".
Definition other : FileHandle := mkHandle 2 "old.xlsx".

Definition alice : Entry :=
  mkEntry "1704067200000_k3x9qa" "2024-01-01" "Alice" "1234567890"
          "12 Main St" (Finite (12345 # 1000)).

Definition bob : Entry :=
  mkEntry "1704153600000_p0z2mm" "2024-01-02" "Bob" "Not provided"
          "Not provided" (Finite (5 # 10000)).

(** A total of 10^21 cubic feet, a value a double holds exactly. *)
Definition carol : Entry :=
  mkEntry "1704240000000_a1b2c3" "2024-01-03" "Carol" "5550100"
          "3 Mill Rd" (Finite (inject_Z (10 ^ 21))).

(** An environment in which nothing rejects, permission is granted and
    the user picks [target]. *)
Definition calm : nat -> Answer :=
  fun _ => mkAnswer None granted target "10:00:00".

(** As [calm], except that call number [n] rejects with [err]. *)
Definition failing_at (n : nat) (err : JSError) : nat -> Answer :=
  fun k => if (k =? n)%nat then mkAnswer (Some err) granted target "10:00:00"
           else calm k.

Definition world (st : option FileHandle) (fs : gmap nat (list Byte.byte))
  (env : nat -> Answer) : World :=
  mkWorld true true true (Some (mkStatus "" false)) st fs env 0 [].

(** Bytes that are not a document of the sample format: the text "hi". *)
Definition garbage : list Byte.byte := [Byte.x68; Byte.x69].

(** A damaged document: the marker, followed by bytes that are no code of
    a workbook. *)
Definition damaged : list Byte.byte :=
  [Byte.x50; Byte.x4b; Byte.x03; Byte.x04].

End Sample.

(* ===================================================================== *)
(** ** Further vocabulary: the calls that connect a file *)
(* ===================================================================== *)

(** The call that shows the file picker. *)
Definition is_picker (e : Event) : bool :=
  match e with
  | EvShowSaveFilePicker => true
  | _ => false
  end.

(** The call that writes the slot of the handle store. *)
Definition is_put (e : Event) : bool :=
  match e with
  | EvPut _ => true
  | _ => false
  end.


(* ===================================================================== *)
(** ** The page: local history, customer records and sharing
       ([script.js], lines 235-423) *)
(* ===================================================================== *)

Definition STORAGE_KEY : string := "cylinderVolumeHistory".
Definition CUSTOMER_HISTORY_KEY : string := "customerVolumeHistory".

#[local] Set Warnings "-register-all".

(** A value as [JSON.parse] delivers it; an object is the list of its own
    properties. *)
Inductive JSON : Type :=
  | JNull
  | JBool (b : bool)
  | JNumber (x : JSNumber)
  | JString (s : string)
  | JArray (items : list JSON)
  | JObject (fields : list (string * JSON)).

(** [item.key]: the property of an object, [undefined] ([None]) for a
    missing property and for every value that is not an object (the keys
    read by the code are no properties of strings, numbers, booleans or
    arrays). *)
Fixpoint lookup_field (key : string) (fields : list (string * JSON))
  : option JSON :=
  match fields with
  | [] => None
  | (k, v) :: rest => if String.eqb k key then Some v else lookup_field key rest
  end.

Definition field (key : string) (item : JSON) : option JSON :=
  match item with
  | JObject fields => lookup_field key fields
  | _ => None
  end.

(** [typeof v === "string"]. *)
Definition is_string (v : option JSON) : bool :=
  match v with
  | Some (JString _) => true
  | _ => false
  end.

(** [typeof v === "number" && Number.isFinite(v)]. *)
Definition is_finite_number (v : option JSON) : bool :=
  match v with
  | Some (JNumber (Finite _)) => true
  | _ => false
  end.

(** The filter of [getHistory] (lines 238-244); a falsy item, and every
    item that is not an object, fails it. *)
Definition valid_calculation (item : JSON) : bool :=
  is_string (field "circumference" item)
  && is_string (field "height" item)
  && is_finite_number (field "volume" item).

(** The filter of [getCustomerHistory] (lines 254-263). *)
Definition valid_customer (item : JSON) : bool :=
  is_string (field "id" item)
  && is_string (field "date" item)
  && is_string (field "name" item)
  && is_string (field "whatsapp" item)
  && is_string (field "address" item)
  && is_finite_number (field "totalVolume" item).

(** The text of a string property and the value of a number property of
    an item that passed its filter. *)
Definition text_of (key : string) (item : JSON) : string :=
  match field key item with
  | Some (JString s) => s
  | _ => "undefined"
  end.

Definition number_of (key : string) (item : JSON) : JSNumber :=
  match field key item with
  | Some (JNumber x) => x
  | _ => NaN
  end.

(** The customer record as the object [createCustomerRecord] builds. *)
Definition entry_object (entry : Entry) : JSON :=
  JObject [("id", JString (id entry)); ("date", JString (date entry));
           ("name", JString (customer entry));
           ("whatsapp", JString (whatsapp entry));
           ("address", JString (address entry));
           ("totalVolume", JNumber (totalVolume entry))].

(** The page around the Excel world: [localStorage], the elements the
    code reads and writes (by id: the [value] of an input, the [innerHTML]
    or [textContent] of any other element), and the URLs handed to
    [window.open], most recent first.  [localStorage.setItem] is taken to
    succeed. *)
Record Page : Type := mkPage {
  excel : World;
  localStorage : gmap string string;
  elements : gmap string string;
  opened : list string
}.

Definition set_excel (w : World) (p : Page) : Page :=
  mkPage w (localStorage p) (elements p) (opened p).

Definition set_localStorage (s : gmap string string) (p : Page) : Page :=
  mkPage (excel p) s (elements p) (opened p).

Definition set_elements (e : gmap string string) (p : Page) : Page :=
  mkPage (excel p) (localStorage p) e (opened p).

Definition set_opened (o : list string) (p : Page) : Page :=
  mkPage (excel p) (localStorage p) (elements p) o.

(** Code running on the page. *)
Definition PM (A : Type) : Type := Page -> Outcome A * Page.

Definition pret {A} (a : A) : PM A := fun p => (Ok a, p).

Definition pthrow {A} (e : JSError) : PM A := fun p => (Throw e, p).

Definition pbind {A B} (m : PM A) (k : A -> PM B) : PM B :=
  fun p =>
    match m p with
    | (Ok a, p') => k a p'
    | (Throw e, p') => (Throw e, p')
    end.

Declare Scope page_scope.
Delimit Scope page_scope with page.
Notation "'let*' x ':=' m 'in' k" := (pbind m (fun x => k))
  (at level 10, x name, m at level 100, k at level 200,
   format "'[v' 'let*'  x  ':='  m  'in' '/' k ']'") : page_scope.
Notation "m ;;; k" := (pbind m (fun _ => k))
  (at level 100, k at level 200, right associativity) : page_scope.
Local Open Scope page_scope.

(** Run Excel-side code on the page's Excel world. *)
Definition on_excel {A} (m : M A) : PM A :=
  fun p => let '(r, w) := m (excel p) in (r, set_excel w p).

(** [localStorage.getItem], [setItem], [removeItem]. *)
Definition getItem (key : string) : PM (option string) :=
  fun p => (Ok (localStorage p !! key), p).

Definition setItem (key value : string) : PM unit :=
  fun p => (Ok tt, set_localStorage (<[key := value]> (localStorage p)) p).

Definition removeItem (key : string) : PM unit :=
  fun p => (Ok tt, set_localStorage (delete key (localStorage p)) p).

(** [document.getElementById(id).value]; reading a property of [null]
    throws. *)
Definition getValue (elementId : string) : PM string :=
  fun p =>
    match elements p !! elementId with
    | Some v => (Ok v, p)
    | None => (Throw (mkError "TypeError"), p)
    end.

(** [document.getElementById(id).innerHTML = text] (or [textContent]). *)
Definition setContent (elementId text : string) : PM unit :=
  fun p =>
    match elements p !! elementId with
    | Some _ => (Ok tt, set_elements (<[elementId := text]> (elements p)) p)
    | None => (Throw (mkError "TypeError"), p)
    end.

(** [window.open(url, "_blank")]. *)
Definition windowOpen (url : string) : PM unit :=
  fun p => (Ok tt, set_opened (url :: opened p) p).

(** [a || b] on strings: the empty string is falsy. *)
Definition or_else (a b : string) : string :=
  if String.eqb a "" then b else a.

(** [s.replace(/[^\d]/g, "")]. *)
Definition digits_only (s : string) : string :=
  string_of_list_ascii (List.filter is_digit (list_ascii_of_string s)).

(** A natural number in a template literal. *)
Definition nat_text (n : nat) : string :=
  string_of_list_ascii (digit_chars (N.of_nat n)).

Definition quote : string := String (ascii_of_nat 34) "".
Definition newline : string := String (ascii_of_nat 10) "".

(** [array.join(separator)]. *)
Fixpoint join (separator : string) (parts : list string) : string :=
  match parts with
  | [] => ""
  | [s] => s
  | s :: rest => s ++ separator ++ join separator rest
  end.

(** [array.splice(index, 1)] for an index inside the array. *)
Fixpoint remove_at {A} (index : nat) (l : list A) : list A :=
  match l, index with
  | [], _ => []
  | _ :: rest, O => rest
  | x :: rest, S i => x :: remove_at i rest
  end.

(** What [createCustomerRecord] returns. *)
Record CustomerDraft : Type := mkDraft {
  customerName : string;
  customerAddress : string;
  cleanPhone : string;
  customerRecord : Entry
}.

Section PageCode.

Variable XLSX_read : list Byte.byte -> option Workbook.
Variable XLSX_write : Workbook -> list Byte.byte.
Variable Number_toString : Q -> string.

(** [JSON.parse] ([None] when it throws), [JSON.stringify], the addition
    of doubles, [String.prototype.trim] and [encodeURIComponent]: language
    and platform functions the page code calls. *)
Variable JSON_parse : string -> option JSON.
Variable JSON_stringify : JSON -> string.
Variable number_add : JSNumber -> JSNumber -> JSNumber.
Variable trim : string -> string.
Variable encodeURIComponent : string -> string.

Definition parse (text : string) : PM JSON :=
  match JSON_parse text with
  | Some v => pret v
  | None => pthrow (mkError "SyntaxError")
  end.

(** The common body of [getHistory] and [getCustomerHistory]. *)
Definition readList (key : string) (valid : JSON -> bool) : PM (list JSON) :=
  let* stored := getItem key in
  let* raw := parse (match stored with
                     | Some text => or_else text "[]"
                     | None => "[]"
                     end) in
  match raw with
  | JArray items => pret (List.filter valid items)
  | _ => pret []
  end.

(** [getHistory()]. *)
Definition getHistory : PM (list JSON) := readList STORAGE_KEY valid_calculation.

(** [saveHistory(history)]. *)
Definition saveHistory (history : list JSON) : PM unit :=
  setItem STORAGE_KEY (JSON_stringify (JArray history)).

(** [getCustomerHistory()]. *)
Definition getCustomerHistory : PM (list JSON) :=
  readList CUSTOMER_HISTORY_KEY valid_customer.

(** [saveCustomerHistory(history)]. *)
Definition saveCustomerHistory (history : list JSON) : PM unit :=
  setItem CUSTOMER_HISTORY_KEY (JSON_stringify (JArray history)).

(** [getTotalVolume(history)]. *)
Definition getTotalVolume (history : list JSON) : JSNumber :=
  fold_left (fun sum item => number_add sum (number_of "volume" item))
            history (Finite 0).

(** One row of [renderHistory] (lines 285-290). *)
Definition historyRow (index : nat) (item : JSON) : string :=
  "<tr>" ++ newline
  ++ "                <td>" ++ text_of "circumference" item ++ "</td>" ++ newline
  ++ "                <td>" ++ text_of "height" item ++ "</td>" ++ newline
  ++ "                <td>" ++ toFixed Number_toString (number_of "volume" item) 3
  ++ "</td>" ++ newline
  ++ "                <td><button class=" ++ quote ++ "delete-btn" ++ quote
  ++ " onclick=" ++ quote ++ "deleteEntry(" ++ nat_text index ++ ")" ++ quote
  ++ ">Delete</button></td>" ++ newline
  ++ "            </tr>".

(** [renderHistory()]. *)
Definition renderHistory : PM unit :=
  let* history := getHistory in
  if (length history =? 0)%nat then
    setContent "historyBody"
      ("<tr><td class=" ++ quote ++ "empty" ++ quote ++ " colspan=" ++ quote
       ++ "4" ++ quote ++ ">No saved calculations yet.</td></tr>") ;;;
    setContent "totalVolume" "Total Volume: 0.000 ft^3"
  else
    setContent "historyBody"
      (join "" (imap historyRow history)) ;;;
    setContent "totalVolume"
      ("Total Volume: " ++ toFixed Number_toString (getTotalVolume history) 3
       ++ " ft^3").

(** One row of [renderCustomerHistory] (lines 306-313). *)
Definition customerRow (item : JSON) : string :=
  "<tr>" ++ newline
  ++ "            <td>" ++ text_of "date" item ++ "</td>" ++ newline
  ++ "            <td>" ++ text_of "name" item ++ "</td>" ++ newline
  ++ "            <td>" ++ text_of "whatsapp" item ++ "</td>" ++ newline
  ++ "            <td>" ++ text_of "address" item ++ "</td>" ++ newline
  ++ "            <td>" ++ toFixed Number_toString (number_of "totalVolume" item) 3
  ++ "</td>" ++ newline
  ++ "            <td><button class=" ++ quote ++ "delete-btn" ++ quote
  ++ " onclick=" ++ quote ++ "deleteCustomerHistory('" ++ text_of "id" item
  ++ "')" ++ quote ++ ">Delete</button></td>" ++ newline
  ++ "        </tr>".

(** [renderCustomerHistory()]. *)
Definition renderCustomerHistory : PM unit :=
  let* history := getCustomerHistory in
  if (length history =? 0)%nat then
    setContent "customerHistoryBody"
      ("<tr><td class=" ++ quote ++ "empty" ++ quote ++ " colspan=" ++ quote
       ++ "6" ++ quote ++ ">No customer history yet.</td></tr>")
  else
    setContent "customerHistoryBody" (join "" (map customerRow history)).

(** The clock- and chance-dependent texts of a new record:
    [`${Date.now()}_${Math.random().toString(36).slice(2, 8)}`] and
    [new Date().toLocaleString()], as the environment delivers them. *)
Definition freshText : PM string := on_excel toLocaleTimeString.

(** [createCustomerRecord(totalVolume)]. *)
Definition createCustomerRecord (total : JSNumber) : PM CustomerDraft :=
  let* nameValue := getValue "customerName" in
  let name := or_else (trim nameValue) "Customer" in
  let* phoneValue := getValue "customerPhone" in
  let phone := trim phoneValue in
  let* addressValue := getValue "customerAddress" in
  let addr := or_else (trim addressValue) "Not provided" in
  let clean := digits_only phone in
  let* recordId := freshText in
  let* recordDate := freshText in
  pret (mkDraft name addr clean
          (mkEntry recordId recordDate name
                   (or_else clean (or_else phone "Not provided"))
                   addr total)).

(** [saveCustomerRecord(entry)]. *)
Definition saveCustomerRecord (entry : Entry) : PM bool :=
  let* customerHistory := getCustomerHistory in
  saveCustomerHistory (entry_object entry :: customerHistory) ;;;
  renderCustomerHistory ;;;
  on_excel (appendCustomerToExcel XLSX_read XLSX_write Number_toString
                                  entry (mkOptions true)).

(** [saveCustomerDataOnly()]. *)
Definition saveCustomerDataOnly : PM unit :=
  let* history := getHistory in
  if (length history =? 0)%nat then
    setContent "result" "No data to save. Add at least one calculation."
  else
    let total := getTotalVolume history in
    let* draft := createCustomerRecord total in
    let* isSaved := saveCustomerRecord (customerRecord draft) in
    if isSaved then
      setContent "result" "Customer data saved to Excel successfully."
    else
      setContent "result"
        "Saved in app history. Excel save failed; check Excel status.".

(** One line of the report of [shareOnWhatsApp] (lines 382-384). *)
Definition reportLine (index : nat) (item : JSON) : string :=
  nat_text (index + 1) ++ ". Circumference: " ++ text_of "circumference" item
  ++ ", Height: " ++ text_of "height" item
  ++ ", Volume: " ++ toFixed Number_toString (number_of "volume" item) 3
  ++ " ft^3".

(** [shareOnWhatsApp()]. *)
Definition shareOnWhatsApp : PM unit :=
  let* history := getHistory in
  if (length history =? 0)%nat then
    setContent "result" "No data to share. Add at least one calculation."
  else
    let total := getTotalVolume history in
    let* draft := createCustomerRecord total in
    let lines := imap reportLine history in
    let message :=
      join newline
        ([("Hello " ++ customerName draft ++ ",")%string;
          "Cylinder Volume Report"]
         ++ lines
         ++ [("Total Volume: " ++ toFixed Number_toString total 3 ++ " ft^3")%string;
             ("Address: " ++ customerAddress draft)%string;
             "";
             "Thank you for being a valued customer of my business."])%list in
    let encodedMessage := encodeURIComponent message in
    let url :=
      if String.eqb (cleanPhone draft) ""
      then ("https://wa.me/?text=" ++ encodedMessage)%string
      else ("https://wa.me/" ++ cleanPhone draft ++ "?text=" ++ encodedMessage)%string in
    saveCustomerRecord (customerRecord draft) ;;;
    windowOpen url.

(** [deleteEntry(index)]. *)
Definition deleteEntry (index : Z) : PM unit :=
  let* history := getHistory in
  if (index <? 0)%Z || (Z.of_nat (length history) <=? index)%Z then pret tt
  else
    saveHistory (remove_at (Z.to_nat index) history) ;;;
    renderHistory.

(** [clearHistory()]. *)
Definition clearHistory : PM unit :=
  removeItem STORAGE_KEY ;;;
  renderHistory.

(** [deleteCustomerHistory(id)]: the items whose [id] is not the given
    text stay. *)
Definition deleteCustomerHistory (recordId : string) : PM unit :=
  let* all := getCustomerHistory in
  let history :=
    List.filter (fun item => negb (String.eqb (text_of "id" item) recordId))
                all in
  saveCustomerHistory history ;;;
  renderCustomerHistory.

End PageCode.


(* ===================================================================== *)
(** ** Sample values for the page code and the further properties *)
(* ===================================================================== *)

Module SamplePage.

(** An environment in which nothing rejects but permission is never
    granted. *)
Definition refusing : nat -> Answer :=
  fun _ => mkAnswer None denied Sample.target "10:00:00".

(** Two stored calculations and a stray item that fails the filter. *)
Definition first_item : JSON :=
  JObject [("circumference", JString "3ft 2in"); ("height", JString "10ft 0in");
           ("volume", JNumber (Finite (7979 # 1000)))].

Definition second_item : JSON :=
  JObject [("circumference", JString "2ft 0in"); ("height", JString "8ft 6in");
           ("volume", JNumber (Finite (2706 # 1000)))].

Definition stray_item : JSON := JString "note".

Definition calculations : list JSON := [first_item; second_item].

Definition customers : list JSON :=
  [entry_object Sample.alice; entry_object Sample.bob].

(** A table in place of [JSON.parse] and [JSON.stringify]: the texts
    ["[]"] is the empty array, ["H"] the stored calculations with a
    stray item between them, ["K"] the two calculations, ["k"] the second
    one alone and ["C"] the stored customer records. *)
Definition parse (text : string) : option JSON :=
  if String.eqb text "[]" then Some (JArray [])
  else if String.eqb text "H" then Some (JArray (first_item :: stray_item :: [second_item]))
  else if String.eqb text "K" then Some (JArray calculations)
  else if String.eqb text "k" then Some (JArray [second_item])
  else if String.eqb text "C" then Some (JArray customers)
  else None.

Definition stringify (v : JSON) : string :=
  match v with
  | JArray (JObject (("circumference", _) :: _) :: _ :: _) => "K"
  | JArray (JObject (("id", _) :: _) :: _) => "C"
  | JArray [] => "[]"
  | _ => "k"
  end.

(** The sum of two numbers, taken exactly (the sample volumes are added
    without rounding). *)
Definition add (x y : JSNumber) : JSNumber :=
  match x, y with
  | NaN, _ | _, NaN => NaN
  | Infinity a, Infinity b => if Bool.eqb a b then Infinity a else NaN
  | Infinity a, Finite _ => Infinity a
  | Finite _, Infinity b => Infinity b
  | Finite a, Finite b => Finite (Qred (a + b))
  end.

Definition no_trim (s : string) : string := s.

Definition page : Page :=
  mkPage (Sample.world (Some Sample.target) {[ 1%nat := [] ]} Sample.calm)
         (<[STORAGE_KEY := "H"]> (<[CUSTOMER_HISTORY_KEY := "C"]> ∅))
         (<["historyBody" := ""]> (<["totalVolume" := ""]>
          (<["customerHistoryBody" := ""]> (<["result" := ""]>
          (<["customerName" := "Alice"]> (<["customerPhone" := "+1 (234) 567-890"]>
          (<["customerAddress" := ""]> ∅)))))))
         [].

End SamplePage.

(* ===================================================================== *)
(** ** Number formatting *)
(* ===================================================================== *)

Example toFixed_12_345 :
  toFixed (fun _ => "") (Finite (12345 # 1000)) 3 = "12.345".
Proof. reflexivity. Qed.

Example toFixed_small_negative :
  toFixed (fun _ => "") (Finite (-1 # 10000)) 3 = "-0.000".
Proof. reflexivity. Qed.

Example toFixed_half_up :
  toFixed (fun _ => "") (Finite (5 # 10000)) 3 = "0.001".
Proof. reflexivity. Qed.

Lemma list_ascii_of_string_app (s t : string) :
  list_ascii_of_string (s ++ t) = list_ascii_of_string s ++ list_ascii_of_string t.
Proof. induction s as [|c s IH]; simpl; [reflexivity | now rewrite IH]. Qed.

Lemma uint_chars_digits (d : Decimal.uint) :
  forallb is_digit (list_ascii_of_string (NilEmpty.string_of_uint d)) = true.
Proof. induction d; simpl; auto. Qed.

Lemma digit_chars_digits (n : N) : forallb is_digit (digit_chars n) = true.
Proof.
  unfold digit_chars, NilZero.string_of_uint.
  destruct (N.to_uint n); try apply (uint_chars_digits (_ _)); reflexivity.
Qed.

Lemma pad_zeros_digits (k : nat) (m : list ascii) :
  forallb is_digit m = true -> forallb is_digit (pad_zeros k m) = true.
Proof.
  intros Hm. unfold pad_zeros. rewrite forallb_app, Hm, andb_true_r.
  induction (k - length m)%nat; simpl; auto.
Qed.

Lemma pad_zeros_length (k : nat) (m : list ascii) :
  (k <= length (pad_zeros k m))%nat.
Proof. unfold pad_zeros. rewrite length_app, repeat_length. lia. Qed.

Lemma forallb_firstn {A} (p : A -> bool) (n : nat) (l : list A) :
  forallb p l = true -> forallb p (firstn n l) = true.
Proof.
  revert n; induction l as [|x l IH]; intros [|n]; simpl; auto.
  intros [-> H]%andb_true_iff. simpl. auto.
Qed.

Lemma forallb_skipn {A} (p : A -> bool) (n : nat) (l : list A) :
  forallb p l = true -> forallb p (skipn n l) = true.
Proof.
  revert n; induction l as [|x l IH]; intros [|n]; simpl; auto.
  intros [_ H]%andb_true_iff. auto.
Qed.

Lemma split_dot_digits (a b : list ascii) :
  forallb is_digit a = true -> split_dot (a ++ "."%char :: b) = Some (a, b).
Proof.
  induction a as [|c a IH]; simpl; [reflexivity|].
  intros [Hc Ha]%andb_true_iff. rewrite (IH Ha).
  destruct (Ascii.eqb c ".") eqn:E; [|reflexivity].
  apply Ascii.eqb_eq in E. subst c. discriminate Hc.
Qed.

Lemma drop_sign_digits (l : list ascii) (c : ascii) :
  is_digit c = true -> drop_sign (c :: l) = c :: l.
Proof.
  intros Hc. simpl. destruct (Ascii.eqb c "-") eqn:E; [|reflexivity].
  apply Ascii.eqb_eq in E. subst c. discriminate Hc.
Qed.

(** Text made of an optional sign, digits, a point and [f] digits is
    recognised. *)
Lemma decimal_text_intro (f : nat) (s : string) (a b : list ascii) :
  (s = "" \/ s = "-") ->
  a <> [] -> forallb is_digit a = true ->
  forallb is_digit b = true -> length b = f ->
  decimal_text f (s ++ string_of_list_ascii a ++ "." ++ string_of_list_ascii b) = true.
Proof.
  intros Hs Ha Da Db Lb. unfold decimal_text.
  rewrite !list_ascii_of_string_app, !list_ascii_of_string_of_list_ascii.
  assert (E : drop_sign (list_ascii_of_string s ++ a ++ list_ascii_of_string "." ++ b)
              = a ++ "."%char :: b).
  { destruct Hs as [-> | ->]; simpl; [|reflexivity].
    destruct a as [|c a]; [congruence|].
    simpl in Da. apply andb_true_iff in Da as [Hc _].
    change ((c :: a) ++ "."%char :: b) with (c :: (a ++ "."%char :: b)).
    now apply drop_sign_digits. }
  rewrite E, (split_dot_digits a b Da), Da, Db, Lb, Nat.eqb_refl.
  destruct a; [congruence | reflexivity].
Qed.

(** Below 10^21 in magnitude, [toFixed] with [f > 0] prints exactly [f]
    fractional digits. *)
Lemma toFixed_decimal_text (ts : Q -> string) (q : Q) (f : nat) :
  (0 < f)%nat -> (Qabs q < inject_Z (10 ^ 21))%Q ->
  decimal_text f (toFixed ts (Finite q) f) = true.
Proof.
  intros Hf Hq. unfold toFixed.
  destruct (Qle_bool (inject_Z (10 ^ 21)) (Qabs q)) eqn:E.
  { apply Qle_bool_iff in E. exfalso. exact (Qlt_not_le _ _ Hq E). }
  destruct (Nat.eqb_spec f 0) as [->|_]; [lia|].
  set (n := Z.to_N _).
  pose proof (pad_zeros_length (f + 1) (digit_chars n)) as Hk.
  pose proof (pad_zeros_digits (f + 1) _ (digit_chars_digits n)) as Hd.
  set (m := pad_zeros (f + 1) (digit_chars n)) in *.
  apply decimal_text_intro.
  - destruct (Qle_bool 0 q); auto.
  - intros E0. apply (f_equal (@length _)) in E0.
    rewrite length_firstn in E0. simpl in E0. lia.
  - now apply forallb_firstn.
  - now apply forallb_skipn.
  - rewrite length_skipn. lia.
Qed.

(** From 10^21 on, [toFixed] hands the magnitude to [Number::toString]. *)
Lemma toFixed_large (ts : Q -> string) (q : Q) (f : nat) :
  (inject_Z (10 ^ 21) <= Qabs q)%Q ->
  toFixed ts (Finite q) f
  = ((if Qle_bool 0 q then "" else "-") ++ ts (Qabs q))%string.
Proof.
  intros Hq. unfold toFixed.
  apply Qle_bool_iff in Hq. now rewrite Hq.
Qed.

(* ===================================================================== *)
(** ** Sheets *)
(* ===================================================================== *)

Lemma put_row_nil (r : list (option string)) : put_row r [] = r.
Proof. induction r as [|c r IH]; simpl; [reflexivity | now rewrite IH]. Qed.

Lemma write_at_bottom (ws : list (list (option string))) (r : list (option string)) :
  write_at (length ws) [r] ws = ws ++ [r].
Proof.
  induction ws as [|x ws IH]; simpl.
  - now rewrite put_row_nil.
  - now rewrite IH.
Qed.

Lemma sheet_add_aoa_bottom (ws : list (list (option string)))
  (r : list (option string)) :
  ws <> [] -> sheet_add_aoa ws [r] origin_bottom = ws ++ [r].
Proof.
  intros H. unfold sheet_add_aoa. destruct ws; [congruence|].
  apply write_at_bottom.
Qed.

Lemma sheet_add_aoa_A1 (ws : list (list (option string)))
  (r : list (option string)) :
  sheet_add_aoa ws [r] origin_A1 = put_row r (hd [] ws) :: tl ws.
Proof. destruct ws; reflexivity. Qed.

Lemma sheet_to_json_app (ws ws' : list (list (option string))) :
  sheet_to_json (ws ++ ws') = sheet_to_json ws ++ sheet_to_json ws'.
Proof. unfold sheet_to_json. now rewrite List.filter_app, map_app. Qed.

Lemma sheet_to_json_one (r : list (option string)) :
  sheet_to_json [r] = if blank_row r then [] else [trim r].
Proof. unfold sheet_to_json. simpl. now destruct (blank_row r). Qed.

Lemma sheet_to_json_nil_blank (ws : list (list (option string))) :
  sheet_to_json ws = [] -> Forall (fun r => blank_row r = true) ws.
Proof.
  unfold sheet_to_json. induction ws as [|r ws IH]; simpl; [constructor|].
  destruct (blank_row r) eqn:E; simpl; [|discriminate].
  intros H. constructor; auto.
Qed.

Lemma sheet_to_json_blank (ws : list (list (option string))) :
  Forall (fun r => blank_row r = true) ws -> sheet_to_json ws = [].
Proof.
  unfold sheet_to_json. induction 1 as [|r ws Hr _ IH]; simpl; [reflexivity|].
  now rewrite Hr.
Qed.

Lemma trim_blank (r : list (option string)) : blank_row r = true -> trim r = [].
Proof.
  induction r as [|c r IH]; simpl; [reflexivity|].
  intros [Hc Hr]%andb_true_iff. now rewrite (IH Hr), Hc.
Qed.

(** Writing a row over a blank row leaves, up to the blank cells at the
    end, the row written. *)
Lemma trim_put_row_blank (new old : list (option string)) :
  blank_row old = true -> trim (put_row new old) = trim new.
Proof.
  revert old; induction new as [|c new IH]; intros old Hb; simpl.
  - now apply trim_blank.
  - destruct old as [|o old]; simpl.
    + now rewrite put_row_nil.
    + simpl in Hb. apply andb_true_iff in Hb as [Ho Hold].
      rewrite (IH _ Hold). destruct o; [discriminate|].
      destruct c; reflexivity.
Qed.

Lemma blank_put_row (new old : list (option string)) :
  blank_row new = false -> blank_row (put_row new old) = false.
Proof.
  revert old; induction new as [|c new IH]; intros old; simpl; [discriminate|].
  destruct old as [|o old]; simpl.
  - now rewrite put_row_nil.
  - destruct c; simpl; [reflexivity|]. intros H. rewrite (IH _ H).
    apply andb_false_r.
Qed.

Section SheetProperties.

Variable Number_toString : Q -> string.

Lemma entryRow_not_blank (entry : Entry) :
  blank_row (entryRow Number_toString entry) = false.
Proof. reflexivity. Qed.

Lemma entryRow_trimmed (entry : Entry) :
  trim (entryRow Number_toString entry) = entryRow Number_toString entry.
Proof. reflexivity. Qed.

(** The append step on every sheet, in list terms. *)
Lemma appendRowToSheet_eq (sheet : list (list (option string)))
  (r : list (option string)) :
  appendRowToSheet sheet r =
    (if (length (sheet_to_json sheet) =? 0)%nat
     then put_row EXCEL_HEADERS (hd [] sheet) :: tl sheet
     else sheet) ++ [r].
Proof.
  unfold appendRowToSheet.
  destruct (length (sheet_to_json sheet) =? 0)%nat eqn:E.
  - rewrite sheet_add_aoa_A1. now apply sheet_add_aoa_bottom.
  - apply sheet_add_aoa_bottom. intros ->. discriminate E.
Qed.

(** C1 (as the code has it).  [appendRowToSheet] called as
    [appendCustomerToExcel] calls it: the row holds the entry's date,
    name, contact, address and volume in this order, the volume printed by
    [toFixed(3)]; the row lands after all rows of the sheet, which stay as
    they are and where they are; a sheet without any (non-blank) row first
    gets the header row in its first row.  A finite volume is printed with
    exactly three fractional digits when its magnitude is below 10^21, and
    as its sign followed by what [Number::toString] makes of the magnitude
    (exponent notation) from 10^21 on. *)
Theorem appendRowToSheet_appends_entry_row
  (sheet : list (list (option string))) (entry : Entry) :
  let row := entryRow Number_toString entry in
  let result := appendRowToSheet sheet row in
  let no_rows := (length (sheet_to_json sheet) =? 0)%nat in
  row = [Some (date entry); Some (customer entry); Some (whatsapp entry);
         Some (address entry);
         Some (toFixed Number_toString (totalVolume entry) 3)]
  /\ result = (if no_rows
               then put_row EXCEL_HEADERS (hd [] sheet) :: tl sheet
               else sheet) ++ [row]
  /\ sheet_to_json result =
       (if no_rows then [EXCEL_HEADERS] else sheet_to_json sheet) ++ [row]
  /\ (sheet = [] -> result = [EXCEL_HEADERS; row])
  /\ (forall q, totalVolume entry = Finite q ->
        if Qle_bool (inject_Z (10 ^ 21)) (Qabs q)
        then toFixed Number_toString (totalVolume entry) 3
             = ((if Qle_bool 0 q then "" else "-")
                  ++ Number_toString (Qabs q))%string
        else decimal_text 3 (toFixed Number_toString (totalVolume entry) 3)
             = true).
Proof.
  intros row result no_rows.
  assert (Hres : result = (if no_rows
               then put_row EXCEL_HEADERS (hd [] sheet) :: tl sheet
               else sheet) ++ [row]) by apply appendRowToSheet_eq.
  split; [reflexivity|]. split; [exact Hres|]. split; [|split].
  - rewrite Hres, sheet_to_json_app. f_equal.
    subst no_rows. destruct (length (sheet_to_json sheet) =? 0)%nat eqn:E;
      [|reflexivity].
    apply Nat.eqb_eq, length_zero_iff_nil, sheet_to_json_nil_blank in E.
    destruct sheet as [|r0 rest]; [reflexivity|].
    apply Forall_cons_iff in E as [H0 Hrest]. simpl hd. simpl tl.
    change (put_row EXCEL_HEADERS r0 :: rest)
      with ([put_row EXCEL_HEADERS r0] ++ rest).
    rewrite sheet_to_json_app, (sheet_to_json_blank rest Hrest), app_nil_r.
    rewrite sheet_to_json_one, blank_put_row by reflexivity.
    now rewrite trim_put_row_blank.
  - intros ->. reflexivity.
  - intros q ->.
    destruct (Qle_bool (inject_Z (10 ^ 21)) (Qabs q)) eqn:E.
    + apply toFixed_large. now apply Qle_bool_iff.
    + apply toFixed_decimal_text; [lia|].
      apply Qnot_le_lt. intros H. apply Qle_bool_iff in H. congruence.
Qed.

(** C4 (as the code has it).  When the workbook has no sheet of the
    fixed name, the sheet created and registered already holds the header
    row, and the append step that follows adds the entry's row without
    inserting a header. *)
Theorem getOrCreateSheet_creates_sheet_with_headers
  (workbook : Workbook) (entry : Entry) :
  Sheets workbook !! EXCEL_SHEET_NAME = None ->
  getOrCreateSheet workbook =
    (mkWorkbook (SheetNames workbook ++ [EXCEL_SHEET_NAME])
                (<[EXCEL_SHEET_NAME := [EXCEL_HEADERS]]> (Sheets workbook)),
     [EXCEL_HEADERS])
  /\ appendRowToSheet [EXCEL_HEADERS] (entryRow Number_toString entry)
     = [EXCEL_HEADERS; entryRow Number_toString entry]
  /\ Sheets (appendEntry Number_toString workbook entry) !! EXCEL_SHEET_NAME
     = Some [EXCEL_HEADERS; entryRow Number_toString entry].
Proof.
  intros H. unfold appendEntry, getOrCreateSheet. rewrite H. simpl.
  split; [reflexivity|]. split; [reflexivity|].
  apply lookup_insert_eq.
Qed.

End SheetProperties.

(** C4, counterexample.  For a decoded workbook without the named sheet,
    the sheet that lines 186-191 create is not empty: it holds the header
    row. *)
Lemma created_sheet_has_header_row :
  let workbook := mkWorkbook ["Sheet1"] (<["Sheet1" := [[Some "x"]]]> ∅) in
  Sheets workbook !! EXCEL_SHEET_NAME = None
  /\ snd (getOrCreateSheet workbook) = [EXCEL_HEADERS]
  /\ snd (getOrCreateSheet workbook) <> [].
Proof.
  assert (H : Sheets (mkWorkbook ["Sheet1"] (<["Sheet1" := [[Some "x"]]]> ∅))
              !! EXCEL_SHEET_NAME = None).
  { simpl. rewrite lookup_insert_ne by discriminate. apply lookup_empty. }
  cbv zeta. unfold getOrCreateSheet. rewrite H. simpl.
  split; [reflexivity|]. split; [reflexivity | discriminate].
Qed.

(* ===================================================================== *)
(** ** Running the asynchronous code *)
(* ===================================================================== *)

Lemma setExcelStatus_eq (message : string) (isError : bool) (w : World) :
  setExcelStatus message isError w =
    (Ok tt, set_excelStatus (shown message isError (excelStatus w))
              (set_trace (EvStatus message isError :: trace w) w)).
Proof. destruct w as [? ? ? [s|] ? ? ? ? ?]; reflexivity. Qed.

Lemma createWorkbookWithHeaders_ok (w : World) :
  createWorkbookWithHeaders w = (Ok headers_workbook, w).
Proof. reflexivity. Qed.

Ltac reduce1 :=
  cbv beta iota zeta delta
    [bind ret throw try_catch gets modify emit ask await lift_option
     openHandleDb saveFileHandle getSavedFileHandle
     ensureReadWritePermission hasReadWritePermission getFile arrayBuffer
     toLocaleTimeString writeWorkbookToHandle showSaveFilePicker
     update_failed
     set_excelStatus set_store set_files set_clock set_trace];
  cbn [set_excelStatus set_store set_files set_clock set_trace
       has_showSaveFilePicker has_indexedDB has_XLSX excelStatus store
       files oracle clock trace fst snd negb orb andb];
  rewrite ?setExcelStatus_eq, ?createWorkbookWithHeaders_ok.

Ltac reduce := repeat (progress reduce1).

Ltac branch :=
  match goal with
  | |- context [match fault ?a with _ => _ end] => destruct (fault a) eqn:?
  | |- context [is_granted ?p] => destruct (is_granted p) eqn:?
  | |- context [match ?m !! ?k with _ => _ end] => destruct (m !! k) eqn:?
  | |- context [(length ?l =? 0)%nat] => destruct (length l =? 0)%nat eqn:?
  | |- context [(0 <? length ?l)%nat] => destruct (0 <? length l)%nat eqn:?
  | |- context [String.eqb ?a ?b] => destruct (String.eqb a b) eqn:?
  | |- context [match ?x with Some _ => _ | None => _ end] =>
      destruct x eqn:?
  end; reduce.

Lemma emitted_here (t : list Event) : t = [] ++ t.
Proof. reflexivity. Qed.

Lemma emitted_cons (x : Event) (l evs t : list Event) :
  l = evs ++ t -> x :: l = (x :: evs) ++ t.
Proof. now intros ->. Qed.

Lemma emitted_app (evs' l evs t : list Event) :
  l = evs ++ t -> evs' ++ l = (evs' ++ evs) ++ t.
Proof. intros ->. apply app_assoc. Qed.

Ltac solve_emitted :=
  unfold emitted; reduce;
  repeat first [apply emitted_here | apply emitted_cons | apply emitted_app].

Lemma length_eqb_0_nil {A} (l : list A) : (length l =? 0)%nat = true -> l = [].
Proof. destruct l; [reflexivity | discriminate]. Qed.

Lemma shown_idem (m1 m2 : string) (e1 e2 : bool) (s : option StatusElement) :
  shown m2 e2 (shown m1 e1 s) = shown m2 e2 s.
Proof. now destruct s. Qed.

Section CoreProperties.

Variable XLSX_read : list Byte.byte -> option Workbook.
Variable XLSX_write : Workbook -> list Byte.byte.
Variable Number_toString : Q -> string.

Abbreviation connect := (connectExcelFile XLSX_write).
Abbreviation append := (appendCustomerToExcel XLSX_read XLSX_write Number_toString).
Abbreviation appendH := (appendWithHandle XLSX_read XLSX_write Number_toString).

(** C9.  When the picker is shown and the user dismisses it (the
    picker rejects with [AbortError]), [connectExcelFile] returns [false]
    with the neutral status "Connection cancelled."; the handle store
    and the files are as before, and nothing but the picker was called. *)
Theorem connect_cancelled (w : World) (e : JSError) :
  has_showSaveFilePicker w = true -> has_indexedDB w = true ->
  has_XLSX w = true ->
  fault (oracle w (clock w)) = Some e -> error_name e = "AbortError" ->
  fst (connect w) = Ok false
  /\ store (snd (connect w)) = store w
  /\ files (snd (connect w)) = files w
  /\ excelStatus (snd (connect w))
     = shown "Connection cancelled." false (excelStatus w)
  /\ emitted w (snd (connect w))
       [EvStatus "Connection cancelled." false; EvShowSaveFilePicker].
Proof.
  intros H1 H2 H3 Hf He. unfold connectExcelFile, emitted. reduce.
  rewrite H1, H2, H3. reduce. rewrite Hf. reduce.
  rewrite He, String.eqb_refl. reduce.
  repeat split; reflexivity.
Qed.

(** C10.  Whatever the collaborators do, [connectExcelFile] leaves the
    files as they are, or has replaced the empty file of the picked
    handle by the header-only document; when the picked file is not
    empty, the files are unchanged and no call of the write sequence
    ([createWritable], [write], [close]) is made. *)
Theorem connect_writes_only_empty_target (w : World) :
  let h := picked (oracle w (clock w)) in
  let w' := snd (connect w) in
  (files w' = files w
   \/ (files w !! fileId h = Some []
       /\ files w' = <[fileId h := XLSX_write headers_workbook]> (files w)))
  /\ (forall bytes, files w !! fileId h = Some bytes -> bytes <> [] ->
        files w' = files w
        /\ exists evs, emitted w w' evs
                       /\ forallb (fun e => negb (is_write e)) evs = true).
Proof.
  unfold connectExcelFile. reduce.
  destruct (has_showSaveFilePicker w), (has_indexedDB w), (has_XLSX w);
    reduce.
  all: repeat branch.
  all: split;
    [ first [ left; reflexivity
            | right; split; [|reflexivity];
              match goal with
              | H : (length _ =? 0)%nat = true |- _ =>
                  apply length_eqb_0_nil in H; subst; reflexivity
              end ]
    | intros bytes Hb Hne;
      first [ exfalso;
              match goal with
              | H : (length _ =? 0)%nat = true |- _ =>
                  apply length_eqb_0_nil in H; congruence
              end
            | discriminate Hb
            | split; [reflexivity|];
              eexists; split; [solve_emitted | reflexivity] ] ].
Qed.

(** C3 (as the code has it).  [connectExcelFile] never throws; it
    returns [true] only if no collaborator call of the run rejected; and
    the handle store is written before the target is read: a run that
    ends before [getFile] (cancelled, permission denied, database or put
    failure) returns [false] and leaves the store as it was, while a run
    that reached [getFile] leaves the picked handle in the store, also
    when reading the target or the initial write fails afterwards. *)
Theorem connect_store_after_failure (w : World) :
  let h := picked (oracle w (clock w)) in
  let w' := snd (connect w) in
  exists b evs,
    fst (connect w) = Ok b
    /\ emitted w w' evs
    /\ (b = true ->
        forall n, (clock w <= n < clock w')%nat -> fault (oracle w n) = None)
    /\ (if existsb is_getFile evs then store w' = Some h
        else b = false /\ store w' = store w).
Proof.
  unfold connectExcelFile. reduce.
  destruct (has_showSaveFilePicker w), (has_indexedDB w), (has_XLSX w);
    reduce.
  all: repeat branch.
  all: eexists _, _; split; [reflexivity|]; split; [solve_emitted|].
  all: cbn [existsb is_getFile orb]; split;
    [ first [ discriminate
            | intros _ n Hn;
              repeat match goal with
                | H : fault (oracle _ ?k) = None |- _ =>
                    destruct (Nat.eq_dec n k) as [->|?]; [exact H | clear H]
                end; lia ]
    | first [ reflexivity | split; reflexivity ] ].
Qed.

(** Every run of [connectExcelFile] returns a boolean and ends by
    setting the status. *)
Lemma connect_concludes (w : World) :
  exists b message isError evs,
    connect w = (Ok b, snd (connect w))
    /\ emitted w (snd (connect w)) (EvStatus message isError :: evs)
    /\ excelStatus (snd (connect w))
       = shown message isError (excelStatus w).
Proof.
  unfold connectExcelFile. reduce.
  destruct (has_showSaveFilePicker w), (has_indexedDB w), (has_XLSX w);
    reduce.
  all: repeat branch.
  all: eexists _, _, _, _; split; [reflexivity|];
    split; [solve_emitted | rewrite ?shown_idem; reflexivity].
Qed.

(** A successful connection stores the picked handle; the picked file
    exists, and it has been initialised if it was empty. *)
Lemma connect_success (w w' : World) :
  connect w = (Ok true, w') ->
  let h := picked (oracle w (clock w)) in
  exists bytes,
    files w !! fileId h = Some bytes
    /\ store w' = Some h
    /\ files w' = (if (length bytes =? 0)%nat
                   then <[fileId h := XLSX_write headers_workbook]> (files w)
                   else files w).
Proof.
  unfold connectExcelFile. reduce.
  destruct (has_showSaveFilePicker w), (has_indexedDB w), (has_XLSX w);
    reduce.
  all: repeat branch.
  all: intros [= <-]; reduce.
  all: eexists; split; [reflexivity|];
    match goal with H : (length _ =? 0)%nat = _ |- _ => rewrite H end;
    split; reflexivity.
Qed.

(** With a picked file that is not empty, [connectExcelFile] writes
    nothing; when it returns [true] the picked handle is in the store. *)
Lemma connect_on_document (w : World) (bytes : list Byte.byte) :
  files w !! fileId (picked (oracle w (clock w))) = Some bytes ->
  bytes <> [] ->
  let w' := snd (connect w) in
  files w' = files w
  /\ (exists evs, emitted w w' evs
                  /\ forallb (fun e => negb (is_write e)) evs = true)
  /\ (fst (connect w) = Ok true ->
      store w' = Some (picked (oracle w (clock w)))).
Proof.
  intros Hf Hne. cbv zeta. unfold connectExcelFile. reduce.
  destruct (has_showSaveFilePicker w), (has_indexedDB w), (has_XLSX w);
    reduce.
  all: repeat branch.
  all: try (exfalso;
            match goal with
            | H : (length _ =? 0)%nat = true |- _ =>
                apply length_eqb_0_nil in H; congruence
            end).
  all: split; [reflexivity|];
    split; [eexists; split; [solve_emitted | reflexivity]|];
    first [discriminate | intros _; reflexivity].
Qed.

(** [appendWithHandle] never touches the handle store; when it
    returns, its last act was to set the status; when it throws, the
    status is as before. *)
Lemma appendWithHandle_frame (entry : Entry) (handle : option FileHandle)
  (w : World) :
  let w' := snd (appendH entry handle w) in
  store w' = store w
  /\ exists evs, emitted w w' evs
     /\ match fst (appendH entry handle w) with
        | Ok b => exists message isError evs',
            evs = EvStatus message isError :: evs'
            /\ excelStatus w' = shown message isError (excelStatus w)
        | Throw _ => excelStatus w' = excelStatus w
        end.
Proof.
  unfold appendWithHandle. reduce.
  repeat branch.
  all: split; [reflexivity|]; eexists; split; [solve_emitted|].
  all: first [ reflexivity | eexists _, _, _; split; reflexivity ].
Qed.

(** A successful [appendWithHandle] has replaced the target's contents
    by the document loaded from it with the entry appended. *)
Lemma appendWithHandle_success (entry : Entry) (handle : option FileHandle)
  (w w' : World) :
  appendH entry handle w = (Ok true, w') ->
  exists h bytes wb,
    handle = Some h
    /\ files w !! fileId h = Some bytes
    /\ loaded XLSX_read bytes = Some wb
    /\ files w' = <[fileId h := XLSX_write (appendEntry Number_toString wb entry)]>
                    (files w).
Proof.
  unfold appendWithHandle, loaded. reduce.
  repeat branch.
  all: intros [= <-]; reduce.
  all: eexists _, _, _; split; [reflexivity|]; split; [eassumption|];
    match goal with H : (0 <? length _)%nat = _ |- _ => rewrite H end;
    split; first [ eassumption | reflexivity ].
Qed.

(** On a target that is not empty and that [XLSX.read] rejects,
    [appendWithHandle] leaves the files and the store alone and never
    starts the write sequence; it returns (with [false] and the status "No
    permission to update Excel file.") exactly when the permission gate
    refuses, and throws otherwise, the status being as before. *)
Lemma appendWithHandle_rejected (entry : Entry) (h : FileHandle)
  (bytes : list Byte.byte) (w : World) :
  files w !! fileId h = Some bytes -> bytes <> [] ->
  XLSX_read bytes = None ->
  let r := appendH entry (Some h) w in
  let w' := snd r in
  files w' = files w /\ store w' = store w
  /\ (exists evs, emitted w w' evs
                  /\ forallb (fun e => negb (is_write e)) evs = true)
  /\ match fst r with
     | Ok b =>
         b = false /\ gate_refuses (oracle w) (clock w) = true
         /\ excelStatus w'
            = shown "No permission to update Excel file." true (excelStatus w)
     | Throw _ =>
         gate_refuses (oracle w) (clock w) = false
         /\ excelStatus w' = excelStatus w
     end.
Proof.
  intros Hf Hne Hr. cbv zeta. unfold appendWithHandle, gate_refuses, resolved.
  reduce.
  repeat branch.
  all: try congruence.
  all: try (destruct bytes; [congruence | simplify_eq; discriminate]).
  all: split; [reflexivity|]; split; [reflexivity|];
    split; [eexists; split; [solve_emitted | reflexivity]|].
  all: repeat match goal with
         | H : fault _ = _ |- _ => rewrite H
         | H : is_granted _ = _ |- _ => rewrite H
         end.
  all: repeat split; reflexivity.
Qed.

Ltac open_append :=
  unfold appendCustomerToExcel; reduce;
  destruct (has_XLSX _), (has_indexedDB _), (has_showSaveFilePicker _);
  reduce.

(** C7.  A call of [appendCustomerToExcel] that starts with a handle in
    the store ends with the same handle in the store, whatever the
    collaborators do and whether the call succeeds or fails. *)
Theorem append_keeps_stored_handle (entry : Entry) (options : Options)
  (w : World) (h : FileHandle) :
  store w = Some h ->
  store (snd (append entry options w)) = Some h.
Proof.
  intros Hs. open_append; try exact Hs.
  rewrite Hs. repeat branch; try reflexivity.
  match goal with
  | |- context [appendH ?e ?x ?W] =>
      pose proof (appendWithHandle_frame e x W) as [HF _];
      destruct (appendH e x W) as [[b|err] w2]
  end; cbn [fst snd store] in HF; reduce; exact HF.
Qed.


(** C6.  A call of [appendCustomerToExcel] (features present) whose
    load of the handle reports that none is stored:
    without [autoConnect] it returns [false] with the error status "Not
    connected. Click Connect Excel." and changes neither the store nor
    the files; with [autoConnect] it runs [connectExcelFile], returns
    [false] in the world the connection flow left when that flow returns
    [false], and otherwise goes on by loading the handle from the store
    again and appending with the handle loaded. *)
Theorem append_without_handle (entry : Entry) (options : Options)
  (w w1 : World) :
  has_XLSX w = true -> has_indexedDB w = true ->
  has_showSaveFilePicker w = true ->
  getSavedFileHandle w = (Ok None, w1) ->
  if autoConnect options then
    match connect w1 with
    | (Ok true, w2) =>
        append entry options w
        = try_catch (let! handle := getSavedFileHandle in
                     appendH entry handle)
                    update_failed w2
    | (r, w2) => r = Ok false /\ append entry options w = (Ok false, w2)
    end
  else
    let w' := snd (append entry options w) in
    fst (append entry options w) = Ok false
    /\ excelStatus w'
       = shown "Not connected. Click Connect Excel." true (excelStatus w)
    /\ store w' = store w /\ files w' = files w
    /\ emitted w w'
         [EvStatus "Not connected. Click Connect Excel." true; EvGet; EvOpenDb].
Proof.
  intros H1 H2 H3. unfold appendCustomerToExcel. reduce.
  rewrite H1, H2, H3. reduce.
  branch; [intros [=]|]. branch; [intros [=]|].
  intros [= Hs <-]. rewrite Hs. reduce. rewrite ?H1, ?H2, ?H3.
  destruct (autoConnect options); reduce.
  - match goal with
    | |- context [connect ?W] =>
        pose proof (connect_concludes W) as (b & m & e & evs & Hc & _);
        destruct (connect W) as [r w2]
    end.
    cbn [snd] in Hc. injection Hc as ->.
    destruct b; reduce; [reflexivity | split; reflexivity].
  - repeat split; solve [reflexivity | symmetry; exact Hs | solve_emitted].
Qed.

Ltac with_appendH :=
  match goal with
  | |- context [appendH ?e ?x ?W] =>
      let evs := fresh "evsA" in
      let Hem := fresh "HemA" in
      let Hres := fresh "HresA" in
      pose proof (appendWithHandle_frame e x W) as (_ & evs & Hem & Hres);
      destruct (appendH e x W) as [[?|?] ?];
      unfold emitted in Hem;
      cbn [fst snd trace excelStatus] in Hem, Hres; reduce
  end.

Ltac with_connect :=
  match goal with
  | |- context [connect ?W] =>
      let b := fresh "connected" in
      let Hc := fresh "Hc" in
      let Hem := fresh "HemC" in
      let Hst := fresh "HstC" in
      pose proof (connect_concludes W) as (b & ? & ? & ? & Hc & Hem & Hst);
      destruct (connect W) as [? ?];
      unfold emitted in Hem;
      cbn [fst snd trace excelStatus] in Hc, Hem, Hst;
      injection Hc as ->; destruct b; reduce
  end.

Ltac conclude :=
  eexists _, _, _, _; split; [reflexivity|];
  split;
  [ unfold emitted; reduce;
    repeat match goal with H : trace _ = _ |- _ => rewrite H; clear H end;
    solve_emitted
  | reduce;
    repeat match goal with
      | H : excelStatus _ = _ |- _ => rewrite H; clear H
      end;
    rewrite ?shown_idem; reflexivity ].

(** Every run of [appendCustomerToExcel] returns a boolean and ends by
    setting the status. *)
Lemma append_concludes (entry : Entry) (options : Options) (w : World) :
  exists b message isError evs,
    fst (append entry options w) = Ok b
    /\ emitted w (snd (append entry options w)) (EvStatus message isError :: evs)
    /\ excelStatus (snd (append entry options w))
       = shown message isError (excelStatus w).
Proof.
  open_append.
  all: repeat match goal with
         | |- context [match fault ?a with _ => _ end] =>
             destruct (fault a) eqn:?; reduce
         end.
  all: try solve [conclude].
  destruct (store w) as [h|] eqn:Hs; reduce;
    [| destruct (autoConnect options); reduce ].
  - with_appendH.
    + destruct HresA as (m & e & evs' & -> & Hst). conclude.
    + conclude.
  - with_connect; [|conclude].
    repeat match goal with
         | |- context [match fault ?a with _ => _ end] =>
             destruct (fault a) eqn:?; reduce
         end.
    all: try solve [conclude].
    with_appendH.
    + destruct HresA as (m & e & evs' & -> & Hst). conclude.
    + conclude.
  - conclude.
Qed.

Abbreviation restore := restoreExcelConnectionStatus.

(** [restoreExcelConnectionStatus] returns, ends by setting the status,
    shows no dialog and changes neither the store nor the files. *)
Lemma restore_concludes (w : World) :
  exists message isError evs,
    fst (restore w) = Ok tt
    /\ emitted w (snd (restore w)) (EvStatus message isError :: evs)
    /\ excelStatus (snd (restore w)) = shown message isError (excelStatus w)
    /\ forallb (fun e => negb (is_prompt e)) evs = true
    /\ store (snd (restore w)) = store w
    /\ files (snd (restore w)) = files w.
Proof.
  unfold restoreExcelConnectionStatus. reduce.
  destruct (has_indexedDB w), (has_showSaveFilePicker w); reduce.
  all: repeat branch.
  all: eexists _, _, _; split; [reflexivity|]; split; [solve_emitted|];
    repeat split; reflexivity.
Qed.

(** C8.  Whatever the collaborators do, [connectExcelFile],
    [appendCustomerToExcel] and [restoreExcelConnectionStatus] return
    normally (the first two with a boolean), and the last thing each run
    does is to set the status; [restoreExcelConnectionStatus] calls
    neither the file picker nor [requestPermission]. *)
Theorem operations_never_throw (entry : Entry) (options : Options)
  (w : World) :
  resolves connect w
  /\ resolves (append entry options) w
  /\ resolves restore w
  /\ exists evs, emitted w (snd (restore w)) evs
       /\ forallb (fun e => negb (is_prompt e)) evs = true.
Proof.
  unfold resolves. split; [|split; [|split]].
  - destruct (connect_concludes w) as (b & m & e & evs & Hc & Hem & Hst).
    exists b, m, e, evs. rewrite Hc at 1. auto.
  - apply append_concludes.
  - destruct (restore_concludes w) as (m & e & evs & H1 & H2 & H3 & _).
    exists tt, m, e, evs. auto.
  - destruct (restore_concludes w) as (m & e & evs & _ & H2 & _ & H4 & _).
    exists (EvStatus m e :: evs). split; [exact H2 | exact H4].
Qed.

(** *** Sequences of appends *)

Ltac no_run := let H := fresh in intros H; discriminate H.

Lemma sheet_to_json_headers (rows : list (list (option string))) :
  (length (sheet_to_json (EXCEL_HEADERS :: rows)) =? 0)%nat = false.
Proof. reflexivity. Qed.

Lemma appendEntry_rows (wb : Workbook) (entry : Entry)
  (rows : list (list (option string))) :
  Sheets wb !! EXCEL_SHEET_NAME = Some (EXCEL_HEADERS :: rows) ->
  Sheets (appendEntry Number_toString wb entry) !! EXCEL_SHEET_NAME
  = Some (EXCEL_HEADERS :: rows ++ [entryRow Number_toString entry]).
Proof.
  intros H. unfold appendEntry, getOrCreateSheet. rewrite H.
  cbn [Sheets]. rewrite lookup_insert_eq, appendRowToSheet_eq.
  now rewrite sheet_to_json_headers.
Qed.

Lemma fresh_target_loaded (bytes : list Byte.byte) :
  fresh_target XLSX_read bytes ->
  exists wb, loaded XLSX_read bytes = Some wb
             /\ Sheets wb !! EXCEL_SHEET_NAME = Some [EXCEL_HEADERS].
Proof.
  unfold loaded. intros [-> | (wb & Hr & Hs)].
  - exists headers_workbook. split; [reflexivity | apply lookup_insert_eq].
  - destruct (0 <? length bytes)%nat; [now exists wb|].
    exists headers_workbook. split; [reflexivity | apply lookup_insert_eq].
Qed.

Section Codec.

Abbreviation appendAll' := (appendAll XLSX_read XLSX_write Number_toString).
Abbreviation rowOf := (entryRow Number_toString).
Abbreviation written := (written_documents Number_toString).
Abbreviation reads_back' := (reads_back XLSX_read XLSX_write).

Lemma loaded_written (wb : Workbook) :
  reads_back' wb -> loaded XLSX_read (XLSX_write wb) = Some wb.
Proof.
  intros [Hr Hne]. unfold loaded.
  destruct (XLSX_write wb) eqn:E; [congruence|].
  cbn [length Nat.ltb Nat.leb]. exact Hr.
Qed.

(** A successful append has written, to the file of the handle it
    leaves in the store, the document it loaded with the entry appended; a
    handle that was stored before is the one used, and the document was
    loaded from its file; without a stored handle the call has connected
    the picked file, and loaded the header-only document written to it if
    it was empty. *)
Lemma append_success (entry : Entry) (options : Options) (w w' : World) :
  append entry options w = (Ok true, w') ->
  exists h bytes wb,
    (forall h0, store w = Some h0 -> h0 = h)
    /\ files w !! fileId h = Some bytes
    /\ loaded XLSX_read
         (match store w, bytes with
          | None, [] => XLSX_write headers_workbook
          | _, _ => bytes
          end) = Some wb
    /\ store w' = Some h
    /\ files w' !! fileId h
       = Some (XLSX_write (appendEntry Number_toString wb entry)).
Proof.
  open_append; try no_run.
  do 2 (branch; [no_run|]).
  destruct (store w) as [h|] eqn:Hs; reduce.
  - match goal with
    | |- context [appendH ?e ?x ?W] =>
        pose proof (appendWithHandle_frame e x W) as [HF _];
        destruct (appendH e x W) as [[b|err] wA] eqn:HA
    end; reduce; intros [= -> <-].
    apply appendWithHandle_success in HA
      as (h' & bytes & wb & [= <-] & Hf & Hl & Hw).
    cbn [fst snd store files] in *.
    exists h, bytes, wb. repeat split; try assumption.
    + now intros h0 [= ->].
    + rewrite Hw. apply lookup_insert_eq.
  - destruct (autoConnect options); reduce; [|no_run].
    match goal with
    | |- context [connect ?W] =>
        destruct (connect W) as [[[|]|err] w2] eqn:HC
    end; reduce; try no_run.
    apply connect_success in HC as (bytes & Hf & Hst & Hfiles).
    cbn [fst snd store files clock oracle] in *.
    do 2 (branch; [no_run|]).
    match goal with
    | |- context [appendH ?e ?x ?W] =>
        pose proof (appendWithHandle_frame e x W) as [HF _];
        destruct (appendH e x W) as [[b|err] wA] eqn:HA
    end; reduce; intros [= -> <-].
    rewrite Hst in HA, HF.
    apply appendWithHandle_success in HA
      as (h' & bytes' & wb & [= <-] & Hf' & Hl & Hw).
    cbn [fst snd store files] in *.
    set (h := picked (oracle w (S (S (clock w))))) in *.
    exists h, bytes, wb. split; [intros h0 [=]|].
    split; [exact Hf|].
    split; [|split; [exact HF | rewrite Hw; apply lookup_insert_eq]].
    rewrite Hfiles in Hf'.
    destruct bytes as [|b0 bytes]; cbn [length Nat.eqb] in Hf'.
    + rewrite lookup_insert_eq in Hf'. injection Hf' as <-. exact Hl.
    + congruence.
Qed.

(** The document a sequence of appends ends with. *)
Lemma written_last (entries : list Entry) (wb0 : Workbook) :
  In (fold_left (appendEntry Number_toString) entries wb0)
     (wb0 :: written wb0 entries).
Proof.
  revert wb0. induction entries as [|e rest IH]; intros wb0.
  - left. reflexivity.
  - right. apply (IH (appendEntry Number_toString wb0 e)).
Qed.

Lemma appended_rows (entries : list Entry) :
  forall (wb0 : Workbook) (rows : list (list (option string))),
    Sheets wb0 !! EXCEL_SHEET_NAME = Some (EXCEL_HEADERS :: rows) ->
    Sheets (fold_left (appendEntry Number_toString) entries wb0)
      !! EXCEL_SHEET_NAME
    = Some (EXCEL_HEADERS :: rows ++ map rowOf entries).
Proof.
  induction entries as [|e rest IH]; intros wb0 rows H.
  - cbn. now rewrite app_nil_r.
  - cbn [fold_left map].
    rewrite (IH _ (rows ++ [rowOf e])).
    + now rewrite <- app_assoc.
    + now apply appendEntry_rows.
Qed.

(** Successful appends on a written document that the container format
    reads back, as it does those written on the way: the file ends up
    holding the last of the written documents. *)
Lemma appendAll_written (calls : list (Entry * Options)) :
  forall (w : World) (h : FileHandle) (wb0 : Workbook),
    store w = Some h ->
    files w !! fileId h = Some (XLSX_write wb0) ->
    reads_back' wb0 ->
    (forall wb, In wb (written wb0 (map fst calls)) -> reads_back' wb) ->
    Forall (fun r => r = Ok true) (fst (appendAll' calls w)) ->
    store (snd (appendAll' calls w)) = Some h
    /\ files (snd (appendAll' calls w)) !! fileId h
       = Some (XLSX_write
                 (fold_left (appendEntry Number_toString) (map fst calls) wb0)).
Proof.
  induction calls as [|[entry options] calls IH];
    intros w h wb0 Hs Hf H0 Hall Hok.
  - split; assumption.
  - cbn [appendAll map fst fold_left written_documents] in *.
    destruct (append entry options w) as [r w1] eqn:HA.
    specialize (IH w1 h (appendEntry Number_toString wb0 entry)).
    destruct (appendAll' calls w1) as [rs w2].
    cbn [fst snd] in *.
    apply Forall_cons_iff in Hok as [-> Hok].
    apply append_success in HA
      as (h' & bytes & wb & Hh & Hf' & Hl & Hs1 & Hf1).
    specialize (Hh h Hs). subst h'.
    rewrite Hs in Hl. rewrite Hf in Hf'. injection Hf' as <-.
    rewrite (loaded_written _ H0) in Hl. injection Hl as <-.
    apply IH; [exact Hs1 | exact Hf1 | | | exact Hok].
    + apply Hall. left. reflexivity.
    + intros d Hd. apply Hall. right. exact Hd.
Qed.


End Codec.

End CoreProperties.

(* ===================================================================== *)
(** ** The sample container format *)
(* ===================================================================== *)

Lemma pos_of_bytes_of_pos (p : positive) :
  Sample.pos_of_bytes (Sample.bytes_of_pos p) = Some p.
Proof. induction p as [p IH|p IH|]; cbn; rewrite ?IH; reflexivity. Qed.

Lemma sample_read_write (wb : Workbook) :
  Sample.read (Sample.write wb) = Some wb.
Proof.
  unfold Sample.read, Sample.write.
  rewrite pos_of_bytes_of_pos. apply decode_encode.
Qed.

Lemma sample_write_not_empty (wb : Workbook) : Sample.write wb <> [].
Proof. discriminate. Qed.

Lemma sample_garbage_rejected : Sample.read Sample.garbage = None.
Proof. reflexivity. Qed.


(* ===================================================================== *)
(** ** Further properties of the permission gate and the handle store *)
(* ===================================================================== *)

(** Without a handle [ensureReadWritePermission] answers [false] and calls
    nothing.  With a handle it changes neither the store nor the files;
    when the query already reports [granted] it returns [true] without
    asking the user; it returns [true] only if the last call it made
    reported [granted]; and it returns [false] only after the user was
    asked. *)
Theorem ensureReadWritePermission_prompts_only_when_needed
  (h : FileHandle) (w : World) :
  let r := ensureReadWritePermission (Some h) w in
  let w' := snd r in
  ensureReadWritePermission None w = (Ok false, w)
  /\ store w' = store w /\ files w' = files w
  /\ excelStatus w' = excelStatus w
  /\ exists evs,
       emitted w w' evs
       /\ (fault (oracle w (clock w)) = None ->
           is_granted (permission (oracle w (clock w))) = true ->
           fst r = Ok true /\ evs = [EvQueryPermission h])
       /\ (fst r = Ok true ->
           is_granted (permission (oracle w (Nat.pred (clock w')))) = true)
       /\ (fst r = Ok false ->
           evs = [EvRequestPermission h; EvQueryPermission h]).
Proof.
  cbv zeta. unfold ensureReadWritePermission. reduce.
  split; [reflexivity|].
  repeat branch.
  all: split; [reflexivity|]; split; [reflexivity|]; split; [reflexivity|].
  all: eexists; split; [solve_emitted|].
  all: cbn [Nat.pred app].
  all: repeat split; try reflexivity; try congruence.
  all: try (intros [= ->]; assumption).
  all: cbn [Nat.pred] in *; congruence.
Qed.

(** [hasReadWritePermission] never throws and never asks the user: it
    makes at most the one [queryPermission] call, changes nothing, and
    answers [true] only if that call resolved with [granted]. *)
Theorem hasReadWritePermission_is_passive (handle : option FileHandle)
  (w : World) :
  let r := hasReadWritePermission handle w in
  let w' := snd r in
  exists b evs,
    fst r = Ok b
    /\ emitted w w' evs
    /\ forallb (fun e => negb (is_prompt e)) evs = true
    /\ (length evs <= 1)%nat
    /\ store w' = store w /\ files w' = files w
    /\ excelStatus w' = excelStatus w
    /\ (b = true ->
        exists h, handle = Some h
                  /\ fault (oracle w (clock w)) = None
                  /\ is_granted (permission (oracle w (clock w))) = true).
Proof.
  cbv zeta. unfold hasReadWritePermission.
  destruct handle as [h|]; reduce; repeat branch.
  all: eexists _, _; split; [reflexivity|]; split; [solve_emitted|].
  all: cbn [forallb is_prompt negb andb length app].
  all: repeat split; try reflexivity; try lia; try discriminate.
  all: intros _; eexists; repeat split; assumption.
Qed.

(** The handle store keeps the last handle put: after a [saveFileHandle]
    that returned, every [getSavedFileHandle] that returns delivers that
    handle; a [saveFileHandle] that throws leaves the stored handle as it
    was; neither touches the files or the status. *)
Theorem saved_handle_is_loaded (h : FileHandle) (w : World) :
  let w1 := snd (saveFileHandle h w) in
  let r := getSavedFileHandle w1 in
  files (snd r) = files w /\ excelStatus (snd r) = excelStatus w
  /\ match fst (saveFileHandle h w) with
     | Ok _ =>
         store (snd r) = Some h
         /\ (forall v, fst r = Ok v -> v = Some h)
     | Throw _ => store (snd r) = store w
                  /\ (forall v, fst r = Ok v -> v = store w)
     end.
Proof.
  cbv zeta. unfold saveFileHandle, getSavedFileHandle. reduce.
  repeat branch.
  all: repeat split; try reflexivity; try discriminate.
  all: intros v [= <-]; reflexivity.
Qed.


Section MoreProperties.

Variable XLSX_read : list Byte.byte -> option Workbook.
Variable XLSX_write : Workbook -> list Byte.byte.
Variable Number_toString : Q -> string.

Abbreviation connect := (connectExcelFile XLSX_write).
Abbreviation append := (appendCustomerToExcel XLSX_read XLSX_write Number_toString).
Abbreviation appendH := (appendWithHandle XLSX_read XLSX_write Number_toString).
Abbreviation restore := restoreExcelConnectionStatus.

(** [writeWorkbookToHandle] is all or nothing: when it returns, the file
    of the handle holds the encoded workbook and every other file is as
    before; when one of [createWritable], [write], [close] rejects, no
    file has changed.  It makes no other call and leaves the store and the
    status alone. *)
Theorem writeWorkbookToHandle_all_or_nothing (workbook : Workbook)
  (h : FileHandle) (w : World) :
  let r := writeWorkbookToHandle XLSX_write workbook h w in
  let w' := snd r in
  match fst r with
  | Ok _ => files w' = <[fileId h := XLSX_write workbook]> (files w)
  | Throw _ => files w' = files w
  end
  /\ store w' = store w /\ excelStatus w' = excelStatus w
  /\ exists evs, emitted w w' evs /\ forallb is_write evs = true.
Proof.
  cbv zeta. unfold writeWorkbookToHandle. reduce.
  repeat branch.
  all: split; [reflexivity|]; split; [reflexivity|]; split; [reflexivity|].
  all: eexists; split; [solve_emitted | reflexivity].
Qed.

(** What [restoreExcelConnectionStatus] shows, by what the collaborators
    do (features present): "Connection unavailable" when opening the
    database or reading the slot rejects; "Not connected" when the slot is
    empty; "Connected (name)" when the stored handle's permission query
    resolves with [granted]; "Re-connect needed" when that query reports
    anything else or rejects. *)
Theorem restore_status_table (w : World) :
  has_indexedDB w = true -> has_showSaveFilePicker w = true ->
  let a0 := oracle w (clock w) in
  let a1 := oracle w (S (clock w)) in
  let a2 := oracle w (S (S (clock w))) in
  excelStatus (snd (restore w)) =
    match fault a0, fault a1 with
    | None, None =>
        match store w with
        | None => shown "Not connected" false (excelStatus w)
        | Some h =>
            match fault a2 with
            | None =>
                if is_granted (permission a2)
                then shown ("Connected (" ++ name h ++ ")") false (excelStatus w)
                else shown "Re-connect needed (permission not granted)" true
                           (excelStatus w)
            | Some _ =>
                shown "Re-connect needed (permission not granted)" true
                      (excelStatus w)
            end
        end
    | _, _ => shown "Connection unavailable. Re-connect Excel." true
                    (excelStatus w)
    end.
Proof.
  intros H1 H2. cbv zeta. unfold restoreExcelConnectionStatus. reduce.
  rewrite H1, H2. reduce.
  repeat branch; first [reflexivity | congruence].
Qed.

(** After a successful [connectExcelFile], a restart that finds the
    database readable and the permission still granted shows the same
    "Connected (name)" status for the file that was picked. *)
Theorem restore_after_connect (w w1 : World) :
  connect w = (Ok true, w1) ->
  fault (oracle w1 (clock w1)) = None ->
  fault (oracle w1 (S (clock w1))) = None ->
  fault (oracle w1 (S (S (clock w1)))) = None ->
  is_granted (permission (oracle w1 (S (S (clock w1))))) = true ->
  let h := picked (oracle w (clock w)) in
  store w1 = Some h
  /\ excelStatus w1 = shown ("Connected (" ++ name h ++ ")") false (excelStatus w)
  /\ excelStatus (snd (restore w1)) = excelStatus w1
  /\ store (snd (restore w1)) = Some h.
Proof.
  intros H G0 G1 G2 G3. revert H.
  unfold connectExcelFile. reduce.
  destruct (has_showSaveFilePicker w) eqn:F1, (has_indexedDB w) eqn:F2,
    (has_XLSX w) eqn:F3; reduce.
  all: repeat branch.
  all: intros H; try discriminate H; injection H as <-.
  all: cbn [clock oracle] in G0, G1, G2, G3.
  all: split; [reflexivity|]; split; [reflexivity|].
  all: unfold restoreExcelConnectionStatus; reduce; rewrite ?F1, ?F2; reduce.
  all: rewrite G0; reduce; rewrite G1; reduce; rewrite G2; reduce;
    rewrite G3; reduce.
  all: rewrite ?shown_idem; split; reflexivity.
Qed.

(** How [connectExcelFile] reports a rejected call: whichever call of
    the run rejects (the picker, a permission call, the database, reading
    the target, the initial write), the run returns [false]; the status is
    the neutral "Connection cancelled." exactly when the error is named
    [AbortError], and the error status "Failed to connect Excel file."
    otherwise. *)
Theorem connect_error_status (w : World) (n : nat) (e : JSError) :
  (clock w <= n < clock (snd (connect w)))%nat ->
  fault (oracle w n) = Some e ->
  fst (connect w) = Ok false
  /\ excelStatus (snd (connect w)) =
       (if String.eqb (error_name e) "AbortError"
        then shown "Connection cancelled." false (excelStatus w)
        else shown "Failed to connect Excel file." true (excelStatus w)).
Proof.
  set (cancelled := String.eqb (error_name e) "AbortError").
  unfold connectExcelFile. reduce.
  destruct (has_showSaveFilePicker w), (has_indexedDB w), (has_XLSX w);
    reduce.
  all: repeat branch.
  all: intros Hn Hf; cbn [clock] in Hn.
  all: repeat match goal with
         | H : fault (oracle _ ?k) = _ |- _ =>
             destruct (Nat.eq_dec n k) as [->|?];
             [ rewrite H in Hf;
               first [ discriminate Hf
                     | injection Hf as <-; subst cancelled;
                       match goal with
                       | E : String.eqb _ _ = _ |- _ => rewrite E
                       end;
                       rewrite ?shown_idem; split; reflexivity ]
             | clear H ]
         end.
  all: lia.
Qed.

(** When the user picks a file but read-write permission is neither
    held nor granted on request, [connectExcelFile] returns [false] with
    the error status "Permission denied for Excel file."; the database is
    not opened, and the stored handle and the files are as before. *)
Theorem connect_permission_denied (w : World) (h : FileHandle) :
  has_showSaveFilePicker w = true -> has_indexedDB w = true ->
  has_XLSX w = true ->
  fault (oracle w (clock w)) = None -> picked (oracle w (clock w)) = h ->
  fault (oracle w (S (clock w))) = None ->
  is_granted (permission (oracle w (S (clock w)))) = false ->
  fault (oracle w (S (S (clock w)))) = None ->
  is_granted (permission (oracle w (S (S (clock w))))) = false ->
  let w' := snd (connect w) in
  fst (connect w) = Ok false
  /\ excelStatus w'
     = shown "Permission denied for Excel file." true (excelStatus w)
  /\ store w' = store w /\ files w' = files w
  /\ emitted w w' [EvStatus "Permission denied for Excel file." true;
                   EvRequestPermission h; EvQueryPermission h;
                   EvShowSaveFilePicker].
Proof.
  intros F1 F2 F3 G0 <- G1 P1 G2 P2. cbv zeta.
  unfold connectExcelFile, emitted. reduce.
  rewrite F1, F2, F3. reduce. rewrite G0. reduce. rewrite G1. reduce.
  rewrite P1. reduce. rewrite G2. reduce. rewrite P2. reduce.
  repeat split; reflexivity.
Qed.

(** When a feature is missing ([showSaveFilePicker], [indexedDB] or the
    XLSX library), [connectExcelFile] and [appendCustomerToExcel] return
    [false] without calling any collaborator: the only effect is one
    error status. *)
Theorem feature_gates (entry : Entry) (options : Options) (w : World) :
  has_showSaveFilePicker w && has_indexedDB w && has_XLSX w = false ->
  (fst (connect w) = Ok false
   /\ clock (snd (connect w)) = clock w
   /\ store (snd (connect w)) = store w /\ files (snd (connect w)) = files w
   /\ exists message, emitted w (snd (connect w)) [EvStatus message true])
  /\ (fst (append entry options w) = Ok false
      /\ clock (snd (append entry options w)) = clock w
      /\ store (snd (append entry options w)) = store w
      /\ files (snd (append entry options w)) = files w
      /\ exists message,
           emitted w (snd (append entry options w)) [EvStatus message true]).
Proof.
  unfold connectExcelFile, appendCustomerToExcel, emitted. reduce.
  destruct (has_showSaveFilePicker w), (has_indexedDB w), (has_XLSX w);
    try discriminate; intros _; reduce.
  all: repeat split; try reflexivity; eexists; reflexivity.
Qed.

End MoreProperties.


Section AppendProperties.

Variable XLSX_read : list Byte.byte -> option Workbook.
Variable XLSX_write : Workbook -> list Byte.byte.
Variable Number_toString : Q -> string.

Abbreviation connect := (connectExcelFile XLSX_write).
Abbreviation append := (appendCustomerToExcel XLSX_read XLSX_write Number_toString).
Abbreviation appendH := (appendWithHandle XLSX_read XLSX_write Number_toString).

Ltac no_result := let H := fresh in intros H; discriminate H.

Ltac enter_append :=
  unfold appendCustomerToExcel; reduce;
  destruct (has_XLSX _), (has_indexedDB _), (has_showSaveFilePicker _);
  reduce.

(** The append only ever touches the sheet "CustomerData": every other
    sheet of the workbook is kept as it is, the sheet names are kept (the
    fixed name is added at the end when it was missing), and the entry's
    row is the last row of the sheet. *)
Theorem appendEntry_keeps_other_sheets (workbook : Workbook) (entry : Entry) :
  let workbook' := appendEntry Number_toString workbook entry in
  (forall sheetName, sheetName <> EXCEL_SHEET_NAME ->
     Sheets workbook' !! sheetName = Sheets workbook !! sheetName)
  /\ SheetNames workbook' =
       match Sheets workbook !! EXCEL_SHEET_NAME with
       | Some _ => SheetNames workbook
       | None => SheetNames workbook ++ [EXCEL_SHEET_NAME]
       end
  /\ exists rows,
       Sheets workbook' !! EXCEL_SHEET_NAME
       = Some (rows ++ [entryRow Number_toString entry]).
Proof.
  cbv zeta. unfold appendEntry, getOrCreateSheet.
  destruct (Sheets workbook !! EXCEL_SHEET_NAME) as [sheet|] eqn:E;
    cbn [Sheets SheetNames].
  - split; [|split; [reflexivity|]].
    + intros n Hn. now rewrite lookup_insert_ne.
    + rewrite lookup_insert_eq, appendRowToSheet_eq. eauto.
  - split; [|split; [reflexivity|]].
    + intros n Hn. now rewrite !lookup_insert_ne.
    + rewrite lookup_insert_eq, appendRowToSheet_eq. eauto.
Qed.

(** The steps after the load, on a given handle: either they return
    [true], having replaced the target by the document loaded from it with
    the entry appended and set the status "Updated at <time>", or no file
    has changed. *)
Lemma appendWithHandle_effect (entry : Entry) (h : FileHandle) (w : World) :
  let r := appendH entry (Some h) w in
  let w' := snd r in
  match fst r with
  | Ok true =>
      exists bytes wb now,
        files w !! fileId h = Some bytes
        /\ loaded XLSX_read bytes = Some wb
        /\ files w' = <[fileId h := XLSX_write (appendEntry Number_toString wb entry)]>
                        (files w)
        /\ excelStatus w' = shown ("Updated at " ++ now) false (excelStatus w)
  | _ => files w' = files w
  end.
Proof.
  cbv zeta. unfold appendWithHandle, loaded. reduce.
  repeat branch; try reflexivity.
  all: eexists _, _, _; split; [reflexivity|];
    match goal with H : (0 <? length _)%nat = _ |- _ => rewrite H end;
    split; [first [eassumption | reflexivity]|]; split; reflexivity.
Qed.

(** With a handle in the store, [appendCustomerToExcel] is all or
    nothing: either it returns [true], the file of the stored handle now
    holds the document loaded from it with the entry appended, every other
    file is as before and the status reads "Updated at <time>"; or it
    returns [false] and no file has changed. *)
Theorem append_all_or_nothing (entry : Entry) (options : Options)
  (w : World) (h : FileHandle) :
  store w = Some h ->
  let r := append entry options w in
  let w' := snd r in
  (fst r = Ok true
   /\ exists bytes wb now,
        files w !! fileId h = Some bytes
        /\ loaded XLSX_read bytes = Some wb
        /\ files w' = <[fileId h := XLSX_write (appendEntry Number_toString wb entry)]>
                        (files w)
        /\ excelStatus w' = shown ("Updated at " ++ now) false (excelStatus w))
  \/ (fst r = Ok false /\ files w' = files w).
Proof.
  intros Hs. cbv zeta. enter_append.
  all: try (right; split; reflexivity).
  rewrite Hs. do 2 (branch; [right; split; reflexivity|]).
  match goal with
  | |- context [appendH ?e (Some ?x) ?W] =>
      pose proof (appendWithHandle_effect e x W) as HE;
      pose proof (appendWithHandle_frame XLSX_read XLSX_write Number_toString
                    e (Some x) W) as (_ & evs & _ & HF);
      destruct (appendH e (Some x) W) as [[[|]|err] w2]
  end; cbn [fst snd files excelStatus] in HE, HF; reduce.
  - left. split; [reflexivity | exact HE].
  - right. split; [reflexivity | exact HE].
  - right. split; [reflexivity | exact HE].
Qed.

(** On an empty target the document written by a successful append has
    the one sheet "CustomerData", holding the header row and the entry's
    row. *)
Theorem append_to_empty_target (entry : Entry) (options : Options)
  (w w' : World) (h : FileHandle) :
  store w = Some h -> files w !! fileId h = Some [] ->
  append entry options w = (Ok true, w') ->
  files w' !! fileId h
  = Some (XLSX_write
            (mkWorkbook [EXCEL_SHEET_NAME]
               (<[EXCEL_SHEET_NAME :=
                    [EXCEL_HEADERS; entryRow Number_toString entry]]> ∅))).
Proof.
  intros Hs Hf. enter_append; try no_result.
  rewrite Hs. do 2 (branch; [no_result|]).
  match goal with
  | |- context [appendH ?e (Some ?x) ?W] =>
      pose proof (appendWithHandle_effect e x W) as HE;
      destruct (appendH e (Some x) W) as [[[|]|err] w2]
  end; cbn [fst snd files] in HE; reduce; try no_result.
  intros [= <-].
  destruct HE as (bytes & wb & now & Hb & Hl & Hw & _).
  rewrite Hf in Hb. injection Hb as <-.
  unfold loaded in Hl. cbn in Hl. injection Hl as <-.
  rewrite Hw, lookup_insert_eq. reflexivity.
Qed.

(** When the stored handle's permission is neither held nor granted on
    request, [appendCustomerToExcel] returns [false] with the error status
    "No permission to update Excel file."; the target is not read, nothing
    is written, and the stored handle is kept. *)
Theorem append_permission_denied (entry : Entry) (options : Options)
  (w : World) (h : FileHandle) :
  has_XLSX w = true -> has_indexedDB w = true ->
  has_showSaveFilePicker w = true ->
  store w = Some h ->
  fault (oracle w (clock w)) = None ->
  fault (oracle w (S (clock w))) = None ->
  fault (oracle w (S (S (clock w)))) = None ->
  is_granted (permission (oracle w (S (S (clock w))))) = false ->
  fault (oracle w (S (S (S (clock w))))) = None ->
  is_granted (permission (oracle w (S (S (S (clock w)))))) = false ->
  let w' := snd (append entry options w) in
  fst (append entry options w) = Ok false
  /\ excelStatus w'
     = shown "No permission to update Excel file." true (excelStatus w)
  /\ store w' = Some h /\ files w' = files w
  /\ emitted w w' [EvStatus "No permission to update Excel file." true;
                   EvRequestPermission h; EvQueryPermission h;
                   EvGet; EvOpenDb].
Proof.
  intros F1 F2 F3 Hs G0 G1 G2 P2 G3 P3. cbv zeta.
  unfold appendCustomerToExcel, appendWithHandle, emitted. reduce.
  rewrite F1, F2, F3. reduce. rewrite G0. reduce. rewrite G1. reduce.
  rewrite Hs. reduce. rewrite G2. reduce. rewrite P2. reduce.
  rewrite G3. reduce. rewrite P3. reduce.
  repeat split; reflexivity.
Qed.

Lemma quiet_run (p : Event -> bool) (evs : list Event) :
  forallb (fun e => negb (p e)) evs = true -> existsb p evs = false.
Proof.
  induction evs as [|x l IH]; [reflexivity|]. cbn.
  intros [H1 H2]%andb_true_iff. rewrite (IH H2).
  now destruct (p x).
Qed.

(** The steps after the load never show the file picker and never write
    the handle store. *)
Lemma appendWithHandle_no_picker (entry : Entry) (handle : option FileHandle)
  (w : World) :
  exists evs,
    emitted w (snd (appendH entry handle w)) evs
    /\ forallb (fun e => negb (is_picker e || is_put e)) evs = true.
Proof.
  unfold appendWithHandle. reduce.
  repeat branch.
  all: eexists; split; [solve_emitted | reflexivity].
Qed.

(** [appendCustomerToExcel] shows the file picker, or writes the handle
    store, only when it was called with [autoConnect] and found no handle
    stored: with a stored handle, or without [autoConnect], no run
    contains a [showSaveFilePicker] or a [put]. *)
Theorem append_connects_only_without_handle (entry : Entry)
  (options : Options) (w : World) :
  exists evs,
    emitted w (snd (append entry options w)) evs
    /\ (existsb (fun e => is_picker e || is_put e) evs = true ->
        autoConnect options = true /\ store w = None).
Proof.
  pose proof (append_concludes XLSX_read XLSX_write Number_toString
                entry options w) as Hrun.
  revert Hrun. enter_append.
  all: repeat match goal with
         | |- context [match fault ?a with _ => _ end] =>
             destruct (fault a) eqn:?; reduce
         end.
  all: try solve [intros _; eexists; split; [solve_emitted | discriminate]].
  destruct (store w) as [h|] eqn:Hs; reduce;
    [| destruct (autoConnect options); reduce ].
  - intros _.
    match goal with
    | |- context [appendH ?e ?x ?W] =>
        destruct (appendWithHandle_no_picker e x W) as (evsA & HemA & HA);
        destruct (appendH e x W) as [[?|?] wA]
    end; unfold emitted in HemA; cbn [snd trace] in HemA; reduce.
    all: eexists; split;
      [ unfold emitted; reduce; rewrite HemA; solve_emitted |].
    all: cbn [existsb is_picker is_put orb app];
      rewrite existsb_app, (quiet_run _ _ HA); discriminate.
  - intros (_ & m & e & evs & _ & Hem & _).
    exists (EvStatus m e :: evs). split; [exact Hem | auto].
  - intros _; eexists; split; [solve_emitted | discriminate].
Qed.

End AppendProperties.


(* ===================================================================== *)
(** ** The page code *)
(* ===================================================================== *)

Ltac page_reduce1 :=
  cbv beta iota zeta delta
    [pbind pret pthrow getItem setItem removeItem getValue setContent
     windowOpen on_excel parse readList getHistory getCustomerHistory
     saveHistory saveCustomerHistory
     set_excel set_localStorage set_elements set_opened];
  cbn [excel localStorage elements opened fst snd negb orb andb].

Ltac page_reduce := repeat (progress page_reduce1).

Lemma keys_differ : STORAGE_KEY <> CUSTOMER_HISTORY_KEY.
Proof. discriminate. Qed.

Lemma filter_all {A} (f : A -> bool) (l : list A) :
  Forall (fun x => f x = true) l -> List.filter f l = l.
Proof.
  induction 1 as [|x l Hx _ IH]; [reflexivity|].
  cbn [List.filter]. now rewrite Hx, IH.
Qed.

Lemma or_else_not_empty (a b : string) : b <> "" -> or_else a b <> "".
Proof.
  unfold or_else. intros Hb. destruct (String.eqb a "") eqn:E; [exact Hb|].
  now apply String.eqb_neq in E.
Qed.

Lemma digits_only_digits (s : string) :
  forallb is_digit (list_ascii_of_string (digits_only s)) = true.
Proof.
  unfold digits_only. rewrite list_ascii_of_string_of_list_ascii.
  induction (list_ascii_of_string s) as [|c l IH]; [reflexivity|].
  cbn. destruct (is_digit c) eqn:E; cbn; rewrite ?E; exact IH.
Qed.

Section PageProperties.

Variable XLSX_read : list Byte.byte -> option Workbook.
Variable XLSX_write : Workbook -> list Byte.byte.
Variable Number_toString : Q -> string.
Variable JSON_parse : string -> option JSON.
Variable JSON_stringify : JSON -> string.
Variable number_add : JSNumber -> JSNumber -> JSNumber.
Variable trim : string -> string.
Variable encodeURIComponent : string -> string.

Abbreviation getHistory' := (getHistory JSON_parse).
Abbreviation getCustomerHistory' := (getCustomerHistory JSON_parse).
Abbreviation saveHistory' := (saveHistory JSON_stringify).
Abbreviation saveCustomerHistory' := (saveCustomerHistory JSON_stringify).
Abbreviation renderHistory' :=
  (renderHistory Number_toString JSON_parse number_add).
Abbreviation renderCustomerHistory' :=
  (renderCustomerHistory Number_toString JSON_parse).
Abbreviation createCustomerRecord' := (createCustomerRecord trim).
Abbreviation saveCustomerRecord' :=
  (saveCustomerRecord XLSX_read XLSX_write Number_toString JSON_parse
                      JSON_stringify).
Abbreviation deleteEntry' :=
  (deleteEntry Number_toString JSON_parse JSON_stringify number_add).
Abbreviation clearHistory' :=
  (clearHistory Number_toString JSON_parse number_add).
Abbreviation deleteCustomerHistory' :=
  (deleteCustomerHistory Number_toString JSON_parse JSON_stringify).

(** Reading a list never changes the page. *)
Lemma readList_pure (key : string) (valid : JSON -> bool) (p : Page) :
  snd (readList JSON_parse key valid p) = p.
Proof.
  unfold readList. page_reduce.
  destruct (JSON_parse _) as [[]|]; reflexivity.
Qed.

(** Rendering only writes elements. *)
Lemma renderHistory_frame (p : Page) :
  let p' := snd (renderHistory' p) in
  excel p' = excel p /\ localStorage p' = localStorage p
  /\ opened p' = opened p.
Proof.
  cbv zeta. unfold renderHistory. page_reduce.
  destruct (JSON_parse _) as [[]|]; page_reduce;
    repeat match goal with
      | |- context [(length ?l =? 0)%nat] => destruct (length l =? 0)%nat
      | |- context [match elements ?p !! ?k with _ => _ end] =>
          destruct (elements p !! k)
      | |- context [match (<[?a := ?b]> ?m) !! ?k with _ => _ end] =>
          destruct ((<[a := b]> m) !! k)
      end; page_reduce; repeat split; reflexivity.
Qed.

Lemma renderCustomerHistory_frame (p : Page) :
  let p' := snd (renderCustomerHistory' p) in
  excel p' = excel p /\ localStorage p' = localStorage p
  /\ opened p' = opened p.
Proof.
  cbv zeta. unfold renderCustomerHistory. page_reduce.
  destruct (JSON_parse _) as [[]|]; page_reduce;
    repeat match goal with
      | |- context [(length ?l =? 0)%nat] => destruct (length l =? 0)%nat
      | |- context [match elements ?p !! ?k with _ => _ end] =>
          destruct (elements p !! k)
      end; page_reduce; repeat split; reflexivity.
Qed.

Lemma remove_at_length {A} (i : nat) (l : list A) :
  (i < length l)%nat -> length (remove_at i l) = (length l - 1)%nat.
Proof.
  revert i; induction l as [|x l IH]; intros [|i] H; cbn in *; try lia.
  rewrite IH by lia. lia.
Qed.

(** What [saveHistory] stores is what [getHistory] reads back, less the
    items that fail its filter (given that [JSON.parse] reads the text
    [JSON.stringify] made of the array); the customer list is not
    affected. *)
Theorem saved_history_is_read_back (history : list JSON) (p : Page) :
  JSON_parse (JSON_stringify (JArray history)) = Some (JArray history) ->
  JSON_stringify (JArray history) <> "" ->
  let p' := snd (saveHistory' history p) in
  getHistory' p' = (Ok (List.filter valid_calculation history), p')
  /\ (Forall (fun item => valid_calculation item = true) history ->
      fst (getHistory' p') = Ok history)
  /\ fst (getCustomerHistory' p') = fst (getCustomerHistory' p).
Proof.
  intros Hrt Hne. cbv zeta. page_reduce.
  rewrite lookup_insert_eq.
  assert (E : or_else (JSON_stringify (JArray history)) "[]"
              = JSON_stringify (JArray history)).
  { unfold or_else. destruct (String.eqb _ "") eqn:E; [|reflexivity].
    now apply String.eqb_eq in E. }
  rewrite E, Hrt. split; [reflexivity|]. split.
  - intros Hall. cbn [fst]. now rewrite filter_all.
  - rewrite lookup_insert_ne by exact keys_differ. clear.
    destruct (JSON_parse _) as [[]|]; reflexivity.
Qed.

(** [deleteEntry] with an index outside the list of valid calculations
    (negative, or not below its length) changes nothing at all; with an
    index inside, it stores the valid calculations without the one at the
    index - one item fewer - and touches neither the customer list nor the
    Excel world. *)
Theorem deleteEntry_bounds (index : Z) (p : Page) (history : list JSON) :
  fst (getHistory' p) = Ok history ->
  let p' := snd (deleteEntry' index p) in
  if (index <? 0)%Z || (Z.of_nat (length history) <=? index)%Z
  then deleteEntry' index p = (Ok tt, p)
  else
    localStorage p'
    = <[STORAGE_KEY :=
          JSON_stringify (JArray (remove_at (Z.to_nat index) history))]>
        (localStorage p)
    /\ length (remove_at (Z.to_nat index) history) = (length history - 1)%nat
    /\ localStorage p' !! CUSTOMER_HISTORY_KEY
       = localStorage p !! CUSTOMER_HISTORY_KEY
    /\ excel p' = excel p /\ opened p' = opened p.
Proof.
  intros Hh. cbv zeta. unfold deleteEntry, pbind.
  pose proof (readList_pure STORAGE_KEY valid_calculation p) as Hp.
  fold (getHistory JSON_parse) in Hp.
  destruct (getHistory' p) as [r p1]. cbn [fst snd] in Hh, Hp. subst r p1.
  destruct ((index <? 0)%Z || (Z.of_nat (length history) <=? index)%Z) eqn:E;
    [reflexivity|].
  apply orb_false_iff in E as [E1 E2].
  apply Z.ltb_ge in E1. apply Z.leb_gt in E2.
  page_reduce.
  match goal with
  | |- context [renderHistory' ?q] =>
      destruct (renderHistory_frame q) as (R1 & R2 & R3)
  end.
  cbn [excel localStorage opened] in R1, R2, R3.
  rewrite R1, R2, R3. split; [reflexivity|]. split.
  - apply remove_at_length. lia.
  - split; [|split; reflexivity].
    rewrite lookup_insert_ne by exact keys_differ. reflexivity.
Qed.

(** [deleteCustomerHistory] stores the valid customer records whose id
    differs from the given one: every record with that id is gone, every
    other record stays, in order; the calculation history and the Excel
    world are not touched. *)
Theorem deleteCustomerHistory_removes_id (recordId : string) (p : Page)
  (all : list JSON) :
  fst (getCustomerHistory' p) = Ok all ->
  let p' := snd (deleteCustomerHistory' recordId p) in
  exists kept,
    localStorage p'
    = <[CUSTOMER_HISTORY_KEY := JSON_stringify (JArray kept)]> (localStorage p)
    /\ Forall (fun item => text_of "id" item <> recordId) kept
    /\ kept = List.filter
                (fun item => negb (String.eqb (text_of "id" item) recordId)) all
    /\ (forall item, In item all -> text_of "id" item <> recordId ->
                     In item kept)
    /\ localStorage p' !! STORAGE_KEY = localStorage p !! STORAGE_KEY
    /\ excel p' = excel p /\ opened p' = opened p.
Proof.
  intros Hh. cbv zeta. unfold deleteCustomerHistory, pbind.
  pose proof (readList_pure CUSTOMER_HISTORY_KEY valid_customer p) as Hp.
  fold (getCustomerHistory JSON_parse) in Hp.
  destruct (getCustomerHistory' p) as [r p1]. cbn [fst snd] in Hh, Hp.
  subst r p1. page_reduce.
  match goal with
  | |- context [renderCustomerHistory' ?q] =>
      destruct (renderCustomerHistory_frame q) as (R1 & R2 & R3)
  end.
  cbn [excel localStorage opened] in R1, R2, R3.
  eexists. rewrite R1, R2, R3. split; [reflexivity|].
  split; [|split; [reflexivity|]; split; [|split; [|split; reflexivity]]].
  - apply List.Forall_forall. intros item [_ H]%filter_In.
    apply negb_true_iff, String.eqb_neq in H. exact H.
  - intros item Hin Hid. apply filter_In. split; [exact Hin|].
    apply negb_true_iff, String.eqb_neq. exact Hid.
  - rewrite lookup_insert_ne by (intros E; symmetry in E; exact (keys_differ E)).
    reflexivity.
Qed.

Abbreviation saveCustomerDataOnly' :=
  (saveCustomerDataOnly XLSX_read XLSX_write Number_toString JSON_parse
                        JSON_stringify number_add trim).
Abbreviation shareOnWhatsApp' :=
  (shareOnWhatsApp XLSX_read XLSX_write Number_toString JSON_parse
                   JSON_stringify number_add trim encodeURIComponent).
Abbreviation excelAppend :=
  (appendCustomerToExcel XLSX_read XLSX_write Number_toString).

(** What a list read delivers depends on [localStorage] only. *)
Lemma readList_storage (key : string) (valid : JSON -> bool) (p q : Page) :
  localStorage q = localStorage p ->
  fst (readList JSON_parse key valid q) = fst (readList JSON_parse key valid p).
Proof.
  intros H. unfold readList. page_reduce. rewrite H.
  destruct (JSON_parse _) as [[]|]; reflexivity.
Qed.

Lemma getCustomerHistory_storage (p q : Page) :
  localStorage q = localStorage p ->
  fst (getCustomerHistory' q) = fst (getCustomerHistory' p).
Proof. apply readList_storage. Qed.

(** [clearHistory] removes the stored calculations - the next read finds
    none - and, with its two elements on the page, shows the total
    "0.000"; the customer list and the Excel world are not touched. *)
Theorem clearHistory_empties (p : Page) :
  JSON_parse "[]" = Some (JArray []) ->
  let p' := snd (clearHistory' p) in
  localStorage p' = delete STORAGE_KEY (localStorage p)
  /\ fst (getHistory' p') = Ok []
  /\ localStorage p' !! CUSTOMER_HISTORY_KEY
     = localStorage p !! CUSTOMER_HISTORY_KEY
  /\ excel p' = excel p
  /\ (is_Some (elements p !! "historyBody") ->
      is_Some (elements p !! "totalVolume") ->
      fst (clearHistory' p) = Ok tt
      /\ elements p' !! "totalVolume" = Some "Total Volume: 0.000 ft^3").
Proof.
  intros Hparse. cbv zeta. unfold clearHistory. page_reduce.
  match goal with
  | |- context [renderHistory' ?q] =>
      destruct (renderHistory_frame q) as (R1 & R2 & R3);
      cbn [excel localStorage opened] in R1, R2, R3
  end.
  rewrite R1, R2. split; [reflexivity|].
  split; [|split; [|split; [reflexivity|]]].
  - rewrite lookup_delete_eq. cbn. rewrite Hparse. reflexivity.
  - rewrite lookup_delete_ne by exact keys_differ. reflexivity.
  - intros [b Hb] [t Ht]. clear R1 R2 R3.
    unfold renderHistory. page_reduce.
    rewrite lookup_delete_eq. cbn [or_else]. rewrite Hparse. page_reduce.
    cbn [List.filter length Nat.eqb]. page_reduce.
    rewrite Hb. page_reduce.
    rewrite lookup_insert_ne by discriminate. rewrite Ht. page_reduce.
    split; [reflexivity | apply lookup_insert_eq].
Qed.

Lemma createCustomerRecord_facts (total : JSNumber) (p : Page) :
  let r := createCustomerRecord' total p in
  let p' := snd r in
  localStorage p' = localStorage p /\ elements p' = elements p
  /\ opened p' = opened p
  /\ store (excel p') = store (excel p) /\ files (excel p') = files (excel p)
  /\ match fst r with
     | Ok draft =>
         let record := customerRecord draft in
         customer record <> "" /\ whatsapp record <> ""
         /\ address record <> ""
         /\ forallb is_digit (list_ascii_of_string (cleanPhone draft)) = true
         /\ (cleanPhone draft <> "" -> whatsapp record = cleanPhone draft)
         /\ customer record = customerName draft
         /\ address record = customerAddress draft
         /\ totalVolume record = total
     | Throw _ =>
         elements p !! "customerName" = None
         \/ elements p !! "customerPhone" = None
         \/ elements p !! "customerAddress" = None
     end.
Proof.
  cbv zeta. unfold createCustomerRecord, freshText. page_reduce.
  destruct (elements p !! "customerName") as [n|] eqn:E1; page_reduce;
    [|repeat split; auto].
  destruct (elements p !! "customerPhone") as [ph|] eqn:E2; page_reduce;
    [|repeat split; auto].
  destruct (elements p !! "customerAddress") as [a|] eqn:E3; page_reduce;
    [|repeat split; auto].
  reduce. page_reduce. cbn [customerRecord customer whatsapp address
                              totalVolume cleanPhone customerName
                              customerAddress store files].
  repeat split.
  - now apply or_else_not_empty.
  - apply or_else_not_empty. now apply or_else_not_empty.
  - now apply or_else_not_empty.
  - apply digits_only_digits.
  - intros Hne. unfold or_else at 1.
    destruct (String.eqb (digits_only (trim ph)) "") eqn:E; [|reflexivity].
    now apply String.eqb_eq in E.
Qed.

Lemma saveCustomerRecord_facts (entry : Entry) (p : Page) :
  let r := saveCustomerRecord' entry p in
  match fst (getCustomerHistory' p) with
  | Throw e => r = (Throw e, p)
  | Ok old =>
      localStorage (snd r)
      = <[CUSTOMER_HISTORY_KEY :=
            JSON_stringify (JArray (entry_object entry :: old))]>
          (localStorage p)
      /\ opened (snd r) = opened p
      /\ (forall b, fst r = Ok b ->
            excelAppend entry (mkOptions true) (excel p)
            = (Ok b, excel (snd r)))
      /\ (forall e, fst r = Throw e -> excel (snd r) = excel p)
  end.
Proof.
  cbv zeta. unfold saveCustomerRecord, pbind.
  pose proof (readList_pure CUSTOMER_HISTORY_KEY valid_customer p) as Hp.
  fold (getCustomerHistory JSON_parse) in Hp.
  destruct (getCustomerHistory' p) as [[old|e] p1]; cbn [fst snd] in Hp |- *;
    subst p1; [|reflexivity].
  page_reduce.
  match goal with
  | |- context [renderCustomerHistory' ?q] =>
      destruct (renderCustomerHistory_frame q) as (R1 & R2 & R3);
      cbn [excel localStorage opened] in R1, R2, R3;
      destruct (renderCustomerHistory' q) as [[[]|e] q']
  end; cbn [fst snd] in R1, R2, R3 |- *; page_reduce.
  - rewrite R1.
    destruct (append_concludes XLSX_read XLSX_write Number_toString entry
                (mkOptions true) (excel p)) as (b & _ & _ & _ & Hb & _).
    destruct (excelAppend entry (mkOptions true) (excel p)) as [r w'].
    cbn [fst snd] in Hb |- *. subst r. page_reduce.
    repeat split; try assumption.
    + intros b' [= <-]. reflexivity.
    + discriminate.
  - repeat split; try assumption; [discriminate | intros _ _; exact R1].
Qed.

(** [createCustomerRecord] only reads the three inputs (and the clock):
    it leaves [localStorage], the elements, the opened windows, the handle
    store and the files alone.  The record it returns never has an empty
    name, contact or address; [cleanPhone] consists of digits only and is
    the contact whenever it is not empty; the name and the address are
    those of the draft, and the volume is the one given.  It throws only
    when one of the three inputs is not on the page. *)
Theorem createCustomerRecord_fields (total : JSNumber) (p : Page) :
  let r := createCustomerRecord' total p in
  let p' := snd r in
  localStorage p' = localStorage p /\ elements p' = elements p
  /\ opened p' = opened p
  /\ store (excel p') = store (excel p) /\ files (excel p') = files (excel p)
  /\ match fst r with
     | Ok draft =>
         let record := customerRecord draft in
         customer record <> "" /\ whatsapp record <> ""
         /\ address record <> ""
         /\ forallb is_digit (list_ascii_of_string (cleanPhone draft)) = true
         /\ (cleanPhone draft <> "" -> whatsapp record = cleanPhone draft)
         /\ customer record = customerName draft
         /\ address record = customerAddress draft
         /\ totalVolume record = total
     | Throw _ =>
         elements p !! "customerName" = None
         \/ elements p !! "customerPhone" = None
         \/ elements p !! "customerAddress" = None
     end.
Proof. exact (createCustomerRecord_facts total p). Qed.

(** [saveCustomerRecord] writes the local list first: when the stored
    customer list cannot be parsed it throws at once and changes nothing
    (Excel is not called); otherwise the list it read, with the new record
    in front, is stored whatever happens afterwards; its answer, when it
    gives one, is the answer of [appendCustomerToExcel] with
    [autoConnect], run on the Excel world as it was; and when rendering
    throws, the Excel world stays as it was. *)
Theorem saveCustomerRecord_local_first (entry : Entry) (p : Page) :
  let r := saveCustomerRecord' entry p in
  match fst (getCustomerHistory' p) with
  | Throw e => r = (Throw e, p)
  | Ok old =>
      localStorage (snd r)
      = <[CUSTOMER_HISTORY_KEY :=
            JSON_stringify (JArray (entry_object entry :: old))]>
          (localStorage p)
      /\ opened (snd r) = opened p
      /\ (forall b, fst r = Ok b ->
            excelAppend entry (mkOptions true) (excel p)
            = (Ok b, excel (snd r)))
      /\ (forall e, fst r = Throw e -> excel (snd r) = excel p)
  end.
Proof. exact (saveCustomerRecord_facts entry p). Qed.

(** [saveCustomerDataOnly] without a valid calculation only sets the
    text "No data to save..."; nothing is stored and Excel is not called.
    With calculations, when it returns, a record carrying their total
    volume has been put in front of the stored customer list, and the text
    shown is "...saved to Excel successfully." exactly when the Excel
    append answered [true]: the local record is kept when Excel fails. *)
Theorem saveCustomerDataOnly_message (p : Page) (history : list JSON) :
  fst (getHistory' p) = Ok history ->
  let r := saveCustomerDataOnly' p in
  let p' := snd r in
  match history with
  | [] =>
      localStorage p' = localStorage p /\ excel p' = excel p
      /\ opened p' = opened p
      /\ (is_Some (elements p !! "result") ->
          fst r = Ok tt
          /\ elements p'
             = <["result" := "No data to save. Add at least one calculation."]>
                 (elements p))
  | _ =>
      fst r = Ok tt ->
      exists record old b w,
        fst (getCustomerHistory' p) = Ok old
        /\ totalVolume record = getTotalVolume number_add history
        /\ localStorage p' !! CUSTOMER_HISTORY_KEY
           = Some (JSON_stringify (JArray (entry_object record :: old)))
        /\ excelAppend record (mkOptions true) w = (Ok b, excel p')
        /\ elements p' !! "result"
           = Some (if b then "Customer data saved to Excel successfully."
                   else "Saved in app history. Excel save failed; check Excel status.")
  end.
Proof.
  intros Hh. cbv zeta. unfold saveCustomerDataOnly, pbind.
  pose proof (readList_pure STORAGE_KEY valid_calculation p) as Hp.
  fold (getHistory JSON_parse) in Hp.
  destruct (getHistory' p) as [r0 p1]. cbn [fst snd] in Hh, Hp. subst r0 p1.
  destruct history as [|item history]; cbn [length Nat.eqb].
  - page_reduce. destruct (elements p !! "result") as [t|] eqn:E; page_reduce.
    + repeat split; reflexivity.
    + repeat split; try reflexivity;
        match goal with H : is_Some None |- _ => destruct H as [? [=]] end.
  - set (total := getTotalVolume number_add (item :: history)).
    pose proof (createCustomerRecord_facts total p) as HC. cbv zeta in HC.
    destruct (createCustomerRecord' total p) as [[draft|e] q];
      cbn [fst snd] in HC |- *; [|discriminate].
    destruct HC as (C1 & C2 & C3 & _ & _ & _ & _ & _ & _ & _ & _ & _ & Ct).
    pose proof (saveCustomerRecord_facts (customerRecord draft) q) as HS.
    cbv zeta in HS.
    rewrite (getCustomerHistory_storage p q C1) in HS.
    destruct (fst (getCustomerHistory' p)) as [old|e] eqn:Hold.
    2:{ rewrite HS. discriminate. }
    destruct (saveCustomerRecord' (customerRecord draft) q) as [[b|e] q2];
      cbn [fst snd] in HS |- *; [|discriminate].
    destruct HS as (S1 & S2 & S3 & _). specialize (S3 b eq_refl).
    assert (Hset : forall text,
               fst (setContent "result" text q2) = Ok tt ->
               localStorage (snd (setContent "result" text q2)) = localStorage q2
               /\ excel (snd (setContent "result" text q2)) = excel q2
               /\ elements (snd (setContent "result" text q2)) !! "result"
                  = Some text).
    { intros text. unfold setContent.
      destruct (elements q2 !! "result"); [|discriminate].
      intros _. cbn. repeat split. apply lookup_insert_eq. }
    destruct b; intros Hok; destruct (Hset _ Hok) as (L & X & T);
      exists (customerRecord draft), old; eexists _, (excel q);
      (split; [reflexivity|]); (split; [exact Ct|]);
      (split; [rewrite L, S1; apply lookup_insert_eq|]);
      (split; [rewrite X; exact S3 | exact T]).
Qed.

(** [shareOnWhatsApp] opens at most one window, and only as the last
    step of a run that returns: either no window was opened, or the run
    returned and opened "https://wa.me/<digits>?text=<text>", where
    <digits> are digits only (none when the phone has no digit). *)
Theorem shareOnWhatsApp_opens_chat (p : Page) :
  let r := shareOnWhatsApp' p in
  let p' := snd r in
  opened p' = opened p
  \/ (fst r = Ok tt
      /\ exists digits text,
           opened p' = ("https://wa.me/" ++ digits ++ "?text=" ++ text)%string
                         :: opened p
           /\ forallb is_digit (list_ascii_of_string digits) = true).
Proof.
  cbv zeta. unfold shareOnWhatsApp, pbind.
  pose proof (readList_pure STORAGE_KEY valid_calculation p) as Hp.
  fold (getHistory JSON_parse) in Hp.
  destruct (getHistory' p) as [[history|e] p1]; cbn [fst snd] in Hp |- *;
    subst p1; [|left; reflexivity].
  destruct (length history =? 0)%nat.
  { left. unfold setContent. destruct (elements p !! "result"); reflexivity. }
  set (total := getTotalVolume number_add history).
  pose proof (createCustomerRecord_facts total p) as HC. cbv zeta in HC.
  destruct (createCustomerRecord' total p) as [[draft|e] q];
    cbn [fst snd] in HC |- *; [|left; apply HC].
  destruct HC as (_ & _ & C3 & _ & _ & _ & _ & _ & Hd & _).
  pose proof (saveCustomerRecord_facts (customerRecord draft) q) as HS.
  cbv zeta in HS.
  assert (HO : opened (snd (saveCustomerRecord' (customerRecord draft) q))
               = opened q).
  { destruct (fst (getCustomerHistory' q)); [apply HS | now rewrite HS]. }
  destruct (saveCustomerRecord' (customerRecord draft) q) as [[b|e] q2];
    cbn [fst snd] in HO |- *; [|left; congruence].
  right. split; [reflexivity|].
  unfold windowOpen. cbn [snd set_opened opened]. rewrite HO, C3.
  exists (cleanPhone draft). eexists. split; [|exact Hd].
  destruct (String.eqb (cleanPhone draft) "") eqn:E; [|reflexivity].
  apply String.eqb_eq in E. rewrite E. reflexivity.
Qed.

End PageProperties.

(* ===================================================================== *)
(** ** The claims on concrete runs *)
(* ===================================================================== *)

Abbreviation sample_connect := (connectExcelFile Sample.write).
Abbreviation sample_append :=
  (appendCustomerToExcel Sample.read Sample.write Sample.exponent).
Abbreviation sample_row := (entryRow Sample.exponent).

(** The scenario of the specification: connect to a fresh target, append
    Alice's record, read the document back. *)
Example connect_then_append_alice :
  let w0 := Sample.world None {[ 1%nat := [] ]} Sample.calm in
  let w1 := snd (sample_connect w0) in
  let w2 := snd (sample_append Sample.alice (mkOptions false) w1) in
  fst (sample_connect w0) = Ok true
  /\ fst (sample_append Sample.alice (mkOptions false) w1) = Ok true
  /\ match files w2 !! 1%nat with
     | Some bytes =>
         match Sample.read bytes with
         | Some wb => Sheets wb !! EXCEL_SHEET_NAME
         | None => None
         end
     | None => None
     end
     = Some [[Some "Date"; Some "Name"; Some "WhatsApp Number";
              Some "Address"; Some "Total Volume (ft^3)"];
             [Some "2024-01-01"; Some "Alice"; Some "1234567890";
              Some "12 Main St"; Some "12.345"]].
Proof. vm_compute. repeat split. Qed.

(** C1, witness: Alice's row appended to a sheet written earlier. *)
Lemma appendRowToSheet_appends_entry_row_witness :
  let sheet := [EXCEL_HEADERS; sample_row Sample.bob] in
  appendRowToSheet sheet (sample_row Sample.alice)
  = [EXCEL_HEADERS; sample_row Sample.bob;
     [Some "2024-01-01"; Some "Alice"; Some "1234567890"; Some "12 Main St";
      Some "12.345"]]
  /\ decimal_text 3 (toFixed Sample.exponent (totalVolume Sample.alice) 3) = true.
Proof.
  destruct (appendRowToSheet_appends_entry_row Sample.exponent
              [EXCEL_HEADERS; sample_row Sample.bob] Sample.alice)
    as (_ & Hres & _ & _ & Hdec).
  split.
  - exact Hres.
  - exact (Hdec (12345 # 1000)%Q eq_refl).
Defined.

(** C1, counterexample: a total volume of 10^21.  The cell of the
    appended row holds what [Number::toString] makes of it - "1e+21" -
    which is no decimal text with three fractional digits. *)
Lemma huge_volume_is_not_decimal_text :
  appendRowToSheet [EXCEL_HEADERS] (sample_row Sample.carol)
  = [EXCEL_HEADERS;
     [Some "2024-01-03"; Some "Carol"; Some "5550100"; Some "3 Mill Rd";
      Some "1e+21"]]
  /\ decimal_text 3 "1e+21" = false
  /\ (forall Number_toString,
        nth 4 (entryRow Number_toString Sample.carol) None
        = Some (Number_toString (inject_Z (10 ^ 21)))).
Proof. repeat split. Qed.



(** C3, counterexample: the user picks an empty file, permission is
    granted, the handle is stored, and [createWritable] then rejects.
    [connectExcelFile] returns [false]; the file was never written, and the
    store, empty before, holds the picked handle. *)
Lemma failed_initialization_keeps_handle :
  let w := Sample.world None {[ 1%nat := [] ]}
             (Sample.failing_at 5 (mkError "NotAllowedError")) in
  let w' := snd (sample_connect w) in
  fst (sample_connect w) = Ok false
  /\ store w = None
  /\ store w' = Some Sample.target
  /\ files w' !! 1%nat = Some []
  /\ trace w' = [EvStatus "Failed to connect Excel file." true;
                 EvCreateWritable Sample.target; EvGetFile Sample.target;
                 EvPut Sample.target; EvOpenDb;
                 EvQueryPermission Sample.target; EvShowSaveFilePicker].
Proof. vm_compute. repeat split. Qed.

(** C4, witness: a decoded workbook with one other sheet. *)
Lemma getOrCreateSheet_creates_sheet_with_headers_witness :
  let workbook := mkWorkbook ["Sheet1"] (<["Sheet1" := [[Some "x"]]]> ∅) in
  Sheets (appendEntry Sample.exponent workbook Sample.alice) !! EXCEL_SHEET_NAME
  = Some [EXCEL_HEADERS; sample_row Sample.alice].
Proof.
  intros workbook.
  assert (H : Sheets workbook !! EXCEL_SHEET_NAME = None).
  { cbn [Sheets workbook]. rewrite lookup_insert_ne by discriminate.
    apply lookup_empty. }
  exact (proj2 (proj2 (getOrCreateSheet_creates_sheet_with_headers
                         Sample.exponent workbook Sample.alice H))).
Defined.



(** C6, witness: no handle stored and no [autoConnect]. *)
Lemma append_without_handle_witness :
  let w := Sample.world None {[ 1%nat := [] ]} Sample.calm in
  let w1 := snd (getSavedFileHandle w) in
  let w' := snd (sample_append Sample.alice (mkOptions false) w) in
  getSavedFileHandle w = (Ok None, w1)
  /\ fst (sample_append Sample.alice (mkOptions false) w) = Ok false
  /\ excelStatus w'
     = shown "Not connected. Click Connect Excel." true (excelStatus w)
  /\ store w' = store w /\ files w' = files w
  /\ emitted w w'
       [EvStatus "Not connected. Click Connect Excel." true; EvGet; EvOpenDb].
Proof.
  intros w w1.
  assert (Hload : getSavedFileHandle w = (Ok None, w1))
    by (vm_compute; reflexivity).
  split; [exact Hload|].
  exact (append_without_handle Sample.read Sample.write Sample.exponent
           Sample.alice (mkOptions false) w w1
           eq_refl eq_refl eq_refl Hload).
Defined.

(** With [autoConnect], the same call connects first and then appends. *)
Example append_connects_on_the_way :
  let w := Sample.world None {[ 1%nat := [] ]} Sample.calm in
  let w' := snd (sample_append Sample.alice (mkOptions true) w) in
  fst (sample_append Sample.alice (mkOptions true) w) = Ok true
  /\ store w' = Some Sample.target
  /\ List.filter is_prompt (trace w') = [EvShowSaveFilePicker]
  /\ length (trace w') = 21%nat.
Proof. vm_compute. repeat split. Qed.

(** C7, witness: an append that fails on an undecodable target. *)
Lemma append_keeps_stored_handle_witness :
  let w := Sample.world (Some Sample.target) {[ 1%nat := Sample.garbage ]}
             Sample.calm in
  store w = Some Sample.target
  /\ fst (sample_append Sample.alice (mkOptions false) w) = Ok false
  /\ store (snd (sample_append Sample.alice (mkOptions false) w))
     = Some Sample.target.
Proof.
  intros w. split; [reflexivity|]. split; [vm_compute; reflexivity|].
  exact (append_keeps_stored_handle Sample.read Sample.write Sample.exponent
           Sample.alice (mkOptions false) w Sample.target eq_refl).
Defined.

(** C9, witness: the picker rejects with [AbortError] while another file
    is connected. *)
Lemma connect_cancelled_witness :
  let w := Sample.world (Some Sample.other) {[ 2%nat := Sample.garbage ]}
             (Sample.failing_at 0 AbortError) in
  fst (sample_connect w) = Ok false
  /\ store (snd (sample_connect w)) = Some Sample.other
  /\ files (snd (sample_connect w)) = files w
  /\ excelStatus (snd (sample_connect w))
     = Some (mkStatus "Excel: Connection cancelled." false)
  /\ emitted w (snd (sample_connect w))
       [EvStatus "Connection cancelled." false; EvShowSaveFilePicker].
Proof.
  exact (connect_cancelled Sample.write
           (Sample.world (Some Sample.other) {[ 2%nat := Sample.garbage ]}
              (Sample.failing_at 0 AbortError))
           AbortError eq_refl eq_refl eq_refl eq_refl eq_refl).
Defined.

(* ===================================================================== *)
(** ** The further properties on the sample values *)
(* ===================================================================== *)

Abbreviation sample_getHistory := (getHistory SamplePage.parse).
Abbreviation sample_getCustomerHistory := (getCustomerHistory SamplePage.parse).
Abbreviation sample_saveHistory := (saveHistory SamplePage.stringify).
Abbreviation sample_deleteEntry :=
  (deleteEntry Sample.exponent SamplePage.parse SamplePage.stringify
               SamplePage.add).
Abbreviation sample_deleteCustomerHistory :=
  (deleteCustomerHistory Sample.exponent SamplePage.parse SamplePage.stringify).
Abbreviation sample_clearHistory :=
  (clearHistory Sample.exponent SamplePage.parse SamplePage.add).
Abbreviation sample_saveCustomerDataOnly :=
  (saveCustomerDataOnly Sample.read Sample.write Sample.exponent
                        SamplePage.parse SamplePage.stringify SamplePage.add
                        SamplePage.no_trim).

(** A stored handle whose permission query answers [denied]. *)
Lemma restore_status_table_witness :
  let w := Sample.world (Some Sample.target) ∅ SamplePage.refusing in
  excelStatus (snd (restoreExcelConnectionStatus w))
  = shown "Re-connect needed (permission not granted)" true (excelStatus w).
Proof.
  intros w. exact (restore_status_table w eq_refl eq_refl).
Defined.

(** Connecting the empty target, then restarting in the calm
    environment. *)
Lemma restore_after_connect_witness :
  let w := Sample.world None {[ 1%nat := [] ]} Sample.calm in
  let w1 := snd (sample_connect w) in
  sample_connect w = (Ok true, w1)
  /\ store w1 = Some Sample.target
  /\ excelStatus w1
     = shown "Connected (customer_data.xlsx)" false (excelStatus w)
  /\ excelStatus (snd (restoreExcelConnectionStatus w1)) = excelStatus w1
  /\ store (snd (restoreExcelConnectionStatus w1)) = Some Sample.target.
Proof.
  intros w w1.
  assert (Hr : fst (sample_connect w) = Ok true) by (vm_compute; reflexivity).
  assert (H : sample_connect w = (Ok true, w1))
    by exact (eq_trans (surjective_pairing _)
                       (f_equal (fun r => (r, w1)) Hr)).
  assert (G0 : fault (oracle w1 (clock w1)) = None)
    by (vm_compute; reflexivity).
  assert (G1 : fault (oracle w1 (S (clock w1))) = None)
    by (vm_compute; reflexivity).
  assert (G2 : fault (oracle w1 (S (S (clock w1)))) = None)
    by (vm_compute; reflexivity).
  assert (G3 : is_granted (permission (oracle w1 (S (S (clock w1))))) = true)
    by (vm_compute; reflexivity).
  split; [exact H|].
  exact (restore_after_connect Sample.write w w1 H G0 G1 G2 G3).
Defined.

(** Opening the database (call number 2 of the run) rejects. *)
Lemma connect_error_status_witness :
  let w := Sample.world None {[ 1%nat := [] ]}
             (Sample.failing_at 2 (mkError "InvalidStateError")) in
  fst (sample_connect w) = Ok false
  /\ excelStatus (snd (sample_connect w))
     = shown "Failed to connect Excel file." true (excelStatus w).
Proof.
  intros w.
  assert (Hn : (clock w <= 2 < clock (snd (sample_connect w)))%nat)
    by (vm_compute; lia).
  exact (connect_error_status Sample.write w 2 (mkError "InvalidStateError")
           Hn eq_refl).
Defined.

(** The user picks the target and refuses the permission. *)
Lemma connect_permission_denied_witness :
  let w := Sample.world None {[ 1%nat := [] ]} SamplePage.refusing in
  let w' := snd (sample_connect w) in
  fst (sample_connect w) = Ok false
  /\ excelStatus w'
     = shown "Permission denied for Excel file." true (excelStatus w)
  /\ store w' = store w /\ files w' = files w
  /\ emitted w w' [EvStatus "Permission denied for Excel file." true;
                   EvRequestPermission Sample.target;
                   EvQueryPermission Sample.target;
                   EvShowSaveFilePicker].
Proof.
  intros w.
  exact (connect_permission_denied Sample.write w Sample.target
           eq_refl eq_refl eq_refl eq_refl eq_refl eq_refl eq_refl eq_refl
           eq_refl).
Defined.

(** A browser without the XLSX library. *)
Lemma feature_gates_witness :
  let w := mkWorld true true false (Some (mkStatus "" false))
             (Some Sample.target) {[ 1%nat := [] ]} Sample.calm 0 [] in
  let entry := Sample.alice in
  let options := mkOptions true in
  (fst (sample_connect w) = Ok false
   /\ clock (snd (sample_connect w)) = clock w
   /\ store (snd (sample_connect w)) = store w
   /\ files (snd (sample_connect w)) = files w
   /\ exists message,
        emitted w (snd (sample_connect w)) [EvStatus message true])
  /\ (fst (sample_append entry options w) = Ok false
      /\ clock (snd (sample_append entry options w)) = clock w
      /\ store (snd (sample_append entry options w)) = store w
      /\ files (snd (sample_append entry options w)) = files w
      /\ exists message,
           emitted w (snd (sample_append entry options w))
                   [EvStatus message true]).
Proof.
  intros w entry options.
  exact (feature_gates Sample.read Sample.write Sample.exponent entry options
           w eq_refl).
Defined.

(** An append to the connected, empty target. *)
Lemma append_all_or_nothing_witness :
  let w := Sample.world (Some Sample.target) {[ 1%nat := [] ]} Sample.calm in
  let r := sample_append Sample.alice (mkOptions false) w in
  let w' := snd r in
  (fst r = Ok true
   /\ exists bytes wb now,
        files w !! fileId Sample.target = Some bytes
        /\ loaded Sample.read bytes = Some wb
        /\ files w'
           = <[fileId Sample.target :=
                 Sample.write (appendEntry Sample.exponent wb Sample.alice)]>
               (files w)
        /\ excelStatus w' = shown ("Updated at " ++ now) false (excelStatus w))
  \/ (fst r = Ok false /\ files w' = files w).
Proof.
  intros w.
  exact (append_all_or_nothing Sample.read Sample.write Sample.exponent
           Sample.alice (mkOptions false) w Sample.target eq_refl).
Defined.

Lemma append_to_empty_target_witness :
  let w := Sample.world (Some Sample.target) {[ 1%nat := [] ]} Sample.calm in
  let w' := snd (sample_append Sample.alice (mkOptions false) w) in
  sample_append Sample.alice (mkOptions false) w = (Ok true, w')
  /\ files w' !! fileId Sample.target
     = Some (Sample.write
               (mkWorkbook [EXCEL_SHEET_NAME]
                  (<[EXCEL_SHEET_NAME :=
                       [EXCEL_HEADERS; sample_row Sample.alice]]> ∅))).
Proof.
  intros w w'.
  assert (Hf : files w !! fileId Sample.target = Some [])
    by (vm_compute; reflexivity).
  assert (Hr : fst (sample_append Sample.alice (mkOptions false) w) = Ok true)
    by (vm_compute; reflexivity).
  assert (H : sample_append Sample.alice (mkOptions false) w = (Ok true, w'))
    by exact (eq_trans (surjective_pairing _)
                       (f_equal (fun r => (r, w')) Hr)).
  split; [exact H|].
  exact (append_to_empty_target Sample.read Sample.write Sample.exponent
           Sample.alice (mkOptions false) w w' Sample.target eq_refl Hf H).
Defined.

(** The stored handle's permission is refused. *)
Lemma append_permission_denied_witness :
  let w := Sample.world (Some Sample.target) {[ 1%nat := [] ]}
             SamplePage.refusing in
  let w' := snd (sample_append Sample.alice (mkOptions true) w) in
  fst (sample_append Sample.alice (mkOptions true) w) = Ok false
  /\ excelStatus w'
     = shown "No permission to update Excel file." true (excelStatus w)
  /\ store w' = Some Sample.target /\ files w' = files w
  /\ emitted w w' [EvStatus "No permission to update Excel file." true;
                   EvRequestPermission Sample.target;
                   EvQueryPermission Sample.target;
                   EvGet; EvOpenDb].
Proof.
  intros w.
  exact (append_permission_denied Sample.read Sample.write Sample.exponent
           Sample.alice (mkOptions true) w Sample.target
           eq_refl eq_refl eq_refl eq_refl eq_refl eq_refl eq_refl eq_refl
           eq_refl eq_refl).
Defined.

(** Saving the two sample calculations over the stored list. *)
Lemma saved_history_is_read_back_witness :
  let history := SamplePage.calculations in
  let p' := snd (sample_saveHistory history SamplePage.page) in
  sample_getHistory p' = (Ok (List.filter valid_calculation history), p')
  /\ (Forall (fun item => valid_calculation item = true) history ->
      fst (sample_getHistory p') = Ok history)
  /\ fst (sample_getCustomerHistory p')
     = fst (sample_getCustomerHistory SamplePage.page).
Proof.
  intros history.
  assert (Hne : SamplePage.stringify (JArray history) <> "")
    by (vm_compute; discriminate).
  exact (saved_history_is_read_back SamplePage.parse SamplePage.stringify
           history SamplePage.page eq_refl Hne).
Defined.

(** Deleting the first of the two valid calculations. *)
Lemma deleteEntry_bounds_witness :
  let p := SamplePage.page in
  let history := SamplePage.calculations in
  let p' := snd (sample_deleteEntry 0 p) in
  fst (sample_getHistory p) = Ok history
  /\ localStorage p'
     = <[STORAGE_KEY :=
           SamplePage.stringify (JArray (remove_at (Z.to_nat 0) history))]>
         (localStorage p)
  /\ length (remove_at (Z.to_nat 0) history) = (length history - 1)%nat
  /\ localStorage p' !! CUSTOMER_HISTORY_KEY
     = localStorage p !! CUSTOMER_HISTORY_KEY
  /\ excel p' = excel p /\ opened p' = opened p.
Proof.
  intros p history.
  assert (H : fst (sample_getHistory p) = Ok history)
    by (vm_compute; reflexivity).
  split; [exact H|].
  exact (deleteEntry_bounds Sample.exponent SamplePage.parse
           SamplePage.stringify SamplePage.add 0 p history H).
Defined.

(** Deleting the first stored customer record by its id. *)
Lemma deleteCustomerHistory_removes_id_witness :
  let p := SamplePage.page in
  let all := SamplePage.customers in
  let recordId := id Sample.alice in
  let p' := snd (sample_deleteCustomerHistory recordId p) in
  fst (sample_getCustomerHistory p) = Ok all
  /\ exists kept,
       localStorage p'
       = <[CUSTOMER_HISTORY_KEY := SamplePage.stringify (JArray kept)]>
           (localStorage p)
       /\ Forall (fun item => text_of "id" item <> recordId) kept
       /\ kept = List.filter
                   (fun item => negb (String.eqb (text_of "id" item) recordId))
                   all
       /\ (forall item, In item all -> text_of "id" item <> recordId ->
                        In item kept)
       /\ localStorage p' !! STORAGE_KEY = localStorage p !! STORAGE_KEY
       /\ excel p' = excel p /\ opened p' = opened p.
Proof.
  intros p all recordId.
  assert (H : fst (sample_getCustomerHistory p) = Ok all)
    by (vm_compute; reflexivity).
  split; [exact H|].
  exact (deleteCustomerHistory_removes_id Sample.exponent SamplePage.parse
           SamplePage.stringify recordId p all H).
Defined.

Lemma clearHistory_empties_witness :
  let p := SamplePage.page in
  let p' := snd (sample_clearHistory p) in
  localStorage p' = delete STORAGE_KEY (localStorage p)
  /\ fst (sample_getHistory p') = Ok []
  /\ localStorage p' !! CUSTOMER_HISTORY_KEY
     = localStorage p !! CUSTOMER_HISTORY_KEY
  /\ excel p' = excel p
  /\ (is_Some (elements p !! "historyBody") ->
      is_Some (elements p !! "totalVolume") ->
      fst (sample_clearHistory p) = Ok tt
      /\ elements p' !! "totalVolume" = Some "Total Volume: 0.000 ft^3").
Proof.
  intros p.
  exact (clearHistory_empties Sample.exponent SamplePage.parse SamplePage.add
           p eq_refl).
Defined.

(** Saving the customer of the sample page, with two calculations stored
    and the empty target connected. *)
Lemma saveCustomerDataOnly_message_witness :
  let p := SamplePage.page in
  let history := SamplePage.calculations in
  let r := sample_saveCustomerDataOnly p in
  let p' := snd r in
  fst (sample_getHistory p) = Ok history
  /\ fst r = Ok tt
  /\ exists record old b w,
       fst (sample_getCustomerHistory p) = Ok old
       /\ totalVolume record = getTotalVolume SamplePage.add history
       /\ localStorage p' !! CUSTOMER_HISTORY_KEY
          = Some (SamplePage.stringify (JArray (entry_object record :: old)))
       /\ sample_append record (mkOptions true) w = (Ok b, excel p')
       /\ elements p' !! "result"
          = Some (if b then "Customer data saved to Excel successfully."
                  else "Saved in app history. Excel save failed; check Excel status.").
Proof.
  intros p history r.
  assert (H : fst (sample_getHistory p) = Ok history)
    by (vm_compute; reflexivity).
  assert (Hok : fst r = Ok tt) by (vm_compute; reflexivity).
  split; [exact H|]. split; [exact Hok|].
  exact (saveCustomerDataOnly_message Sample.read Sample.write Sample.exponent
           SamplePage.parse SamplePage.stringify SamplePage.add
           SamplePage.no_trim p history H Hok).
Defined.
